(** * webanim: error taxonomy, initialization pipeline and render loop

    A shallow embedding of [src/errors.ts], [src/logger.ts] (its entry
    points) and [src/main.ts].

    Vocabulary.  The specification renames three things of the code:
    its FailureKind is the code's [ErrorType], its Surface [api] is the
    code's ["webgpu"], and its Surface [display_target] is the code's
    ["canvas"].  The embedding keeps the code's names. *)

From Stdlib Require Import Bool List String Ascii ZArith Lia.
Import ListNotations.
Open Scope string_scope.

(* ================================================================== *)
(** * JavaScript values *)

Module Js.

(** An IEEE-754 double, kept abstract enough to decide truthiness:
    NaN, the two infinities, the two zeros and the non-zero finite
    numbers (sign, mantissa, exponent). *)
Inductive Number : Type :=
| NaN
| Infinity (negative : bool)
| Zero (negative : bool)
| Finite (negative : bool) (mantissa : positive) (exponent : Z).

(** A value of type [unknown].  [ErrorObject] is an instance of the
    built-in [Error].  The other objects go by reference: [Object] is
    one that [String(v)] converts to a string; [Unprintable] is one it
    cannot convert (no usable [toString] or [valueOf], or one that
    throws), [thrown] being what the conversion throws. *)
Inductive Value : Type :=
| Undefined
| Null
| Boolean (b : bool)
| Num (n : Number)
| BigInt (z : Z)
| Str (s : string)
| ErrorObject (name message : string)
| Object (ref : positive)
| Unprintable (ref : positive) (thrown : Value).

(** ToBoolean: what [if (v)] tests. *)
Definition truthy (v : Value) : bool :=
  match v with
  | Undefined | Null => false
  | Boolean b => b
  | Num NaN => false
  | Num (Zero _) => false
  | Num (Infinity _) => true
  | Num (Finite _ _ _) => true
  | BigInt z => negb (Z.eqb z 0)
  | Str s => negb (String.eqb s "")
  | ErrorObject _ _ => true
  | Object _ => true
  | Unprintable _ _ => true
  end.

(** What [String(v)] throws, when it throws: primitives and errors
    always convert. *)
Definition stringThrows (v : Value) : option Value :=
  match v with
  | Unprintable _ thrown => Some thrown
  | _ => None
  end.

(** [v instanceof Error] for a value that is not an [AppError]. *)
Definition instanceofError (v : Value) : bool :=
  match v with
  | ErrorObject _ _ => true
  | _ => false
  end.

(** A string-valued property that may be [undefined]. *)
Definition ofOptString (o : option string) : Value :=
  match o with
  | Some s => Str s
  | None => Undefined
  end.

(** [String.prototype.split] with a one-character separator: the
    pieces between the separators, never an empty array. *)
Fixpoint split (sep : ascii) (s : string) : list string :=
  match s with
  | EmptyString => [EmptyString]
  | String c rest =>
      if Ascii.eqb c sep then EmptyString :: split sep rest
      else match split sep rest with
           | [] => [String c EmptyString]
           | piece :: pieces => String c piece :: pieces
           end
  end.

(** An object literal: its own properties in insertion order. *)
Definition Obj : Type := list (string * Value).

Definition hasField (k : string) (o : Obj) : bool :=
  existsb (fun kv => String.eqb (fst kv) k) o.

Fixpoint getField (k : string) (o : Obj) : Value :=
  match o with
  | [] => Undefined
  | (k', v) :: rest => if String.eqb k' k then v else getField k rest
  end.

(** An own property of an object, if it has it. *)
Fixpoint getOwn (k : string) (o : Obj) : option Value :=
  match o with
  | [] => None
  | (k', v) :: rest => if String.eqb k' k then Some v else getOwn k rest
  end.

(** [Object.prototype], which every object literal inherits from: its
    standard properties (the legacy accessors of Annex B among them),
    in a realm where nothing was added to it.  All are functions but
    [__proto__], whose getter answers [Object.prototype] itself for an
    object literal. *)
Definition objectPrototype : Obj :=
  [ ("constructor", Object 1);
    ("hasOwnProperty", Object 2);
    ("isPrototypeOf", Object 3);
    ("propertyIsEnumerable", Object 4);
    ("toLocaleString", Object 5);
    ("toString", Object 6);
    ("valueOf", Object 7);
    ("__proto__", Object 8);
    ("__defineGetter__", Object 9);
    ("__defineSetter__", Object 10);
    ("__lookupGetter__", Object 11);
    ("__lookupSetter__", Object 12) ].

(** [o.k = v]: overwrite in place, or append a new property. *)
Fixpoint setField (k : string) (v : Value) (o : Obj) : Obj :=
  match o with
  | [] => [(k, v)]
  | (k', v') :: rest =>
      if String.eqb k' k then (k', v) :: rest
      else (k', v') :: setField k v rest
  end.

End Js.

(* ================================================================== *)
(** * src/errors.ts *)

Module Errors.

(** [type ErrorType = "unavailable" | "not_found" | "failed" |
    "initialization_failed"] *)
Inductive ErrorType : Type :=
| unavailable | not_found | failed | initialization_failed.

(** [type Surface = "webgpu" | "adapter" | "device" | "context" |
    "canvas" | "pipeline"] *)
Inductive Surface : Type :=
| webgpu | adapter | device | context | canvas | pipeline.

(** [type ErrorVisibility = "user" | "log" | "both"] *)
Inductive ErrorVisibility : Type :=
| user | log | both.

Definition ErrorType_str (t : ErrorType) : string :=
  match t with
  | unavailable => "unavailable"
  | not_found => "not_found"
  | failed => "failed"
  | initialization_failed => "initialization_failed"
  end.

Definition Surface_str (s : Surface) : string :=
  match s with
  | webgpu => "webgpu"
  | adapter => "adapter"
  | device => "device"
  | context => "context"
  | canvas => "canvas"
  | pipeline => "pipeline"
  end.

Definition ErrorVisibility_str (v : ErrorVisibility) : string :=
  match v with
  | user => "user"
  | log => "log"
  | both => "both"
  end.

(** [type ErrorCode = `${ErrorType}:${Surface}`]: at run time a
    string; the well-typed ones are the 24 strings below. *)
Definition ErrorCode : Type := string.

Definition mkErrorCode (t : ErrorType) (s : Surface) : ErrorCode :=
  ErrorType_str t ++ ":" ++ Surface_str s.

(** [visibilityBySurface]: the module-level record, with its
    run-time keys. *)
Definition visibilityBySurface : list (string * ErrorVisibility) :=
  [ ("webgpu", user);
    ("adapter", user);
    ("device", log);
    ("context", user);
    ("canvas", user);
    ("pipeline", log) ].

(** What [visibilityBySurface[k]] evaluates to: the value of an own
    property of the table, or of a property inherited from
    [Object.prototype], or [undefined]. *)
Inductive Looked : Type :=
| Found (v : ErrorVisibility)
| Inherited (v : Js.Value)
| NotFound.

(** The own properties of the table. *)
Fixpoint ownVisibility (tbl : list (string * ErrorVisibility))
         (key : string) : option ErrorVisibility :=
  match tbl with
  | [] => None
  | (key', v) :: rest =>
      if String.eqb key' key then Some v else ownVisibility rest key
  end.

(** [tbl[k]]: the key is converted to a string, so [undefined] reads
    the property named "undefined"; own properties first, then the
    prototype chain, which for an object literal is [Object.prototype]
    alone. *)
Definition lookupVisibility (tbl : list (string * ErrorVisibility))
           (k : option string) : Looked :=
  let key := match k with
             | Some key => key
             | None => "undefined"
             end in
  match ownVisibility tbl key with
  | Some v => Found v
  | None =>
      match Js.getOwn key Js.objectPrototype with
      | Some v => Inherited v
      | None => NotFound
      end
  end.

(** [getMessageByErrorCode]: the [switch] compares with [===]. *)
Definition getMessageByErrorCode (errorCode : ErrorCode) : string :=
  if String.eqb errorCode "unavailable:webgpu" then
    "WebGPU is not available in this environment."
  else if String.eqb errorCode "not_found:canvas" then
    "Canvas element not found."
  else if String.eqb errorCode "not_found:adapter" then
    "No suitable GPU adapter found."
  else if String.eqb errorCode "failed:device" then
    "Failed to request a GPU device."
  else if String.eqb errorCode "initialization_failed:context" then
    "Failed to initialize WebGPU canvas context."
  else if String.eqb errorCode "failed:pipeline" then
    "Failed to create render pipeline."
  else
    "Something went wrong. Please try again later.".

(** The instance fields of [AppError], those inherited from [Error]
    first.  [type] and [surface] hold what the destructuring of
    [split] gave, [None] when the piece is missing. *)
Record AppError : Type := mkAppError {
  name : string;
  message : string;
  stack : option string;
  type : option string;
  surface : option string;
  code : ErrorCode;
  cause : Js.Value
}.

(** Methods run against the receiver [this]: a state monad over the
    instance, so that a method that assigns a field shows it. *)
Definition Method (A : Type) : Type := AppError -> A * AppError.

Definition ret {A} (a : A) : Method A := fun this => (a, this).

Definition bind {A B} (m : Method A) (k : A -> Method B) : Method B :=
  fun this => let (a, this') := m this in k a this'.

Definition read {A} (field : AppError -> A) : Method A :=
  fun this => (field this, this).

Definition assign (upd : AppError -> AppError) : Method unit :=
  fun this => (tt, upd this).

Definition call {A} (m : Method A) (this : AppError) : A := fst (m this).

Definition after {A} (m : Method A) (this : AppError) : AppError :=
  snd (m this).

Declare Scope method_scope.
Delimit Scope method_scope with method.
Notation "x <- m ;; k" := (bind m (fun x => k))
  (at level 61, m at next level, right associativity) : method_scope.
Notation "m ;; k" := (bind m (fun _ => k))
  (at level 61, right associativity) : method_scope.

Definition set_type (v : option string) (e : AppError) : AppError :=
  mkAppError (name e) (message e) (stack e) v (surface e) (code e) (cause e).
Definition set_surface (v : option string) (e : AppError) : AppError :=
  mkAppError (name e) (message e) (stack e) (type e) v (code e) (cause e).
Definition set_code (v : ErrorCode) (e : AppError) : AppError :=
  mkAppError (name e) (message e) (stack e) (type e) (surface e) v (cause e).
Definition set_cause (v : Js.Value) (e : AppError) : AppError :=
  mkAppError (name e) (message e) (stack e) (type e) (surface e) (code e) v.
Definition set_message (v : string) (e : AppError) : AppError :=
  mkAppError (name e) v (stack e) (type e) (surface e) (code e) (cause e).
Definition set_name (v : string) (e : AppError) : AppError :=
  mkAppError v (message e) (stack e) (type e) (surface e) (code e) (cause e).

(** [super()]: a fresh [Error] with no message; the engine captures
    [captured] as its stack (engines without stacks leave it
    undefined).  The fields of [AppError] are not assigned yet: [code]
    holds a placeholder until the constructor assigns it. *)
Definition Error_super (captured : option string) : AppError :=
  mkAppError "Error" "" captured None None "" Js.Undefined.

(** The body of [constructor(errorCode, cause)] after [super()]. *)
Definition constructor_body (newTarget : string) (errorCode : ErrorCode)
           (cause0 : Js.Value) : Method unit :=
  (let parts := Js.split ":" errorCode in
   let type0 := nth_error parts 0 in
   let surface0 := nth_error parts 1 in
   assign (set_type type0) ;;
   assign (set_surface surface0) ;;
   assign (set_code errorCode) ;;
   assign (set_cause cause0) ;;
   assign (set_message (getMessageByErrorCode errorCode)) ;;
   assign (set_name newTarget))%method.

(** [new C(errorCode, cause)] where [C.name = newTarget]. *)
Definition new_AppError (newTarget : string) (captured : option string)
           (errorCode : ErrorCode) (cause0 : Js.Value) : AppError :=
  after (constructor_body newTarget errorCode cause0) (Error_super captured).

Definition getVisibility : Method Looked :=
  (s <- read surface ;;
   ret (lookupVisibility visibilityBySurface s))%method.

(** [visibility === v] where [visibility] is what the lookup gave. *)
Definition visibility_is (o : Looked) (v : ErrorVisibility) : bool :=
  match o, v with
  | Found user, user => true
  | Found log, log => true
  | Found both, both => true
  | _, _ => false
  end.

Definition shouldShowToUser : Method bool :=
  (visibility <- getVisibility ;;
   ret (visibility_is visibility user || visibility_is visibility both))%method.

Definition shouldLog : Method bool :=
  (visibility <- getVisibility ;;
   ret (visibility_is visibility log || visibility_is visibility both))%method.

Definition visibility_value (o : Looked) : Js.Value :=
  match o with
  | Found v => Js.Str (ErrorVisibility_str v)
  | Inherited v => v
  | NotFound => Js.Undefined
  end.

Definition toJSON : Method Js.Obj :=
  (code0 <- read code ;;
   message0 <- read message ;;
   type0 <- read type ;;
   surface0 <- read surface ;;
   visibility <- getVisibility ;;
   let json : Js.Obj :=
     [ ("code", Js.Str code0);
       ("message", Js.Str message0);
       ("type", Js.ofOptString type0);
       ("surface", Js.ofOptString surface0);
       ("visibility", visibility_value visibility) ] in
   cause0 <- read cause ;;
   let json := if Js.truthy cause0
               then Js.setField "cause" cause0 json else json in
   stack0 <- read stack ;;
   let json := if Js.truthy (Js.ofOptString stack0)
               then Js.setField "stack" (Js.ofOptString stack0) json
               else json in
   ret json)%method.

(** The subclasses: each passes its fixed code to [super]. *)
Definition WebGPUUnavailableError (captured : option string)
           (cause0 : Js.Value) : AppError :=
  new_AppError "WebGPUUnavailableError" captured "unavailable:webgpu" cause0.

Definition CanvasNotFoundError (captured : option string)
           (cause0 : Js.Value) : AppError :=
  new_AppError "CanvasNotFoundError" captured "not_found:canvas" cause0.

Definition AdapterNotFoundError (captured : option string)
           (cause0 : Js.Value) : AppError :=
  new_AppError "AdapterNotFoundError" captured "not_found:adapter" cause0.

Definition DeviceRequestFailedError (captured : option string)
           (cause0 : Js.Value) : AppError :=
  new_AppError "DeviceRequestFailedError" captured "failed:device" cause0.

Definition ContextInitFailedError (captured : option string)
           (cause0 : Js.Value) : AppError :=
  new_AppError "ContextInitFailedError" captured
               "initialization_failed:context" cause0.

Definition PipelineCreationFailedError (captured : option string)
           (cause0 : Js.Value) : AppError :=
  new_AppError "PipelineCreationFailedError" captured "failed:pipeline" cause0.

End Errors.

(* ================================================================== *)
(** * The host: DOM, WebGPU, frame scheduling *)

Module Host.

(** Opaque handles of the WebGPU objects the program holds. *)
Definition GPUDevice : Type := positive.
Definition GPUCanvasContext : Type := positive.

(** How a promise settles. *)
Inductive Settled (A : Type) : Type :=
| Resolved (a : A)
| Rejected (reason : Js.Value).
Arguments Resolved {A} a.
Arguments Rejected {A} reason.

Record GPUAdapter : Type := mkGPUAdapter {
  requestDevice : Settled GPUDevice
}.

Record GPU : Type := mkGPU {
  requestAdapter : option GPUAdapter;
  getPreferredCanvasFormat : string
}.

Record HTMLCanvasElement : Type := mkCanvas {
  width : Js.Number;
  height : Js.Number;
  getContext : string -> option GPUCanvasContext
}.

(** The page the script is loaded in.  [getElementById] is the
    document's lookup, [navigator_gpu] is [None] when
    ["gpu" in navigator] is false, [captureStack] is what the engine
    stores in [stack] when an [Error] is constructed.

    The calls of the initialization answer as their signatures say:
    the lookups return an object or [null], the adapter promise
    resolves to an adapter or to [null], the device promise resolves or
    rejects; [getPreferredCanvasFormat] and [configure] return. *)
Record Page : Type := mkPage {
  getElementById : string -> option HTMLCanvasElement;
  navigator_gpu : option GPU;
  captureStack : option string
}.

(** What the GPU calls of one frame do: [Some x] when the call
    throws [x]. *)
Record Frame : Type := mkFrame {
  getCurrentTexture_throws : option Js.Value;
  createView_throws : option Js.Value;
  createCommandEncoder_throws : option Js.Value;
  beginRenderPass_throws : option Js.Value;
  end_throws : option Js.Value;
  finish_throws : option Js.Value;
  submit_throws : option Js.Value
}.

(** The closure [frame] of [main]: the variables it captured. *)
Record FrameClosure : Type := mkFrameClosure {
  gpuContext : GPUCanvasContext;
  device : GPUDevice
}.

(** What can be thrown, and what [logger.error] receives after
    [err instanceof Error ? err : new Error(String(err))], when that
    expression has a value ([toError] below is the expression). *)
Inductive Thrown : Type :=
| ThrownAppError (e : Errors.AppError)
| ThrownValue (v : Js.Value).

Inductive Reported : Type :=
| ReportedAppError (e : Errors.AppError)
| ReportedError (v : Js.Value)
| ReportedWrapped (v : Js.Value).

(** The value bound by [catch (error)] where only host calls are
    in the [try] block: they throw no [AppError]. *)
Definition caught (t : Thrown) : Js.Value :=
  match t with
  | ThrownValue v => v
  | ThrownAppError e => Js.ErrorObject (Errors.name e) (Errors.message e)
  end.

(** What [err instanceof Error ? err : new Error(String(err))] gives
    when it has a value, that is, for every value but the
    [Unprintable] ones, on which [String] throws. *)
Definition asError (t : Thrown) : Reported :=
  match t with
  | ThrownAppError e => ReportedAppError e
  | ThrownValue v =>
      if Js.instanceofError v then ReportedError v else ReportedWrapped v
  end.

(** The calls the program makes on its collaborators; [CanvasWidth]
    and [CanvasHeight] are the reads of [canvas.width] and
    [canvas.height]. *)
Inductive Event : Type :=
| LoggerDebug (message : string) (context : option Js.Obj)
| LoggerError (error : Reported) (context : option Js.Obj)
| DocumentGetElementById (id : string)
| CanvasWidth
| CanvasHeight
| GpuInNavigator
| GpuRequestAdapter
| AdapterRequestDevice
| CanvasGetContext (contextId : string)
| GpuGetPreferredCanvasFormat
| ContextConfigure (ctx : GPUCanvasContext) (dev : GPUDevice)
                   (format alphaMode : string)
| ContextGetCurrentTexture (ctx : GPUCanvasContext)
| TextureCreateView
| DeviceCreateCommandEncoder (dev : GPUDevice)
| EncoderBeginRenderPass (clearValue : list (string * string))
                         (loadOp storeOp : string)
| PassEnd
| EncoderFinish
| QueueSubmit (dev : GPUDevice)
| RequestAnimationFrame (callback : FrameClosure).

(** The world: the calls made so far, newest first, and the
    callbacks waiting for the next animation frame, oldest first. *)
Record World : Type := mkWorld {
  calls : list Event;
  rafQueue : list FrameClosure
}.

Definition initial : World := mkWorld [] [].

(** The calls in the order they were made. *)
Definition trace (w : World) : list Event := rev (calls w).

(** Statements complete normally or abruptly, by a [throw]. *)
Inductive Completion (A : Type) : Type :=
| Normal (a : A)
| Abrupt (t : Thrown).
Arguments Normal {A} a.
Arguments Abrupt {A} t.

Definition Exec (A : Type) : Type := World -> Completion A * World.

Definition ret {A} (a : A) : Exec A := fun w => (Normal a, w).

Definition throw {A} (t : Thrown) : Exec A := fun w => (Abrupt t, w).

Definition bind {A B} (m : Exec A) (k : A -> Exec B) : Exec B :=
  fun w =>
    match m w with
    | (Normal a, w') => k a w'
    | (Abrupt t, w') => (Abrupt t, w')
    end.

(** [try { body } catch (error) { handler }] *)
Definition try_catch {A} (body : Exec A) (handler : Thrown -> Exec A)
  : Exec A :=
  fun w =>
    match body w with
    | (Normal a, w') => (Normal a, w')
    | (Abrupt t, w') => handler t w'
    end.

Definition emit (e : Event) : Exec unit :=
  fun w => (Normal tt, mkWorld (e :: calls w) (rafQueue w)).

(** A host call that returns [a]. *)
Definition returns {A} (e : Event) (a : A) : Exec A :=
  bind (emit e) (fun _ => ret a).

(** A host call that returns nothing and may throw. *)
Definition mayThrow (e : Event) (x : option Js.Value) : Exec unit :=
  bind (emit e) (fun _ =>
    match x with
    | Some v => throw (ThrownValue v)
    | None => ret tt
    end).

(** [await p] *)
Definition await {A} (e : Event) (p : Settled A) : Exec A :=
  bind (emit e) (fun _ =>
    match p with
    | Resolved a => ret a
    | Rejected reason => throw (ThrownValue reason)
    end).

(** [requestAnimationFrame(callback)] *)
Definition requestAnimationFrame (callback : FrameClosure) : Exec unit :=
  fun w =>
    (Normal tt,
     mkWorld (RequestAnimationFrame callback :: calls w)
             (rafQueue w ++ [callback])).

(** [err instanceof Error ? err : new Error(String(err))]: an error is
    taken as it is; anything else goes through [String], which may
    throw. *)
Definition toError (t : Thrown) : Exec Reported :=
  match t with
  | ThrownAppError _ => ret (asError t)
  | ThrownValue v =>
      if Js.instanceofError v then ret (asError t)
      else match Js.stringThrows v with
           | Some thrown => throw (ThrownValue thrown)
           | None => ret (asError t)
           end
  end.

Declare Scope exec_scope.
Delimit Scope exec_scope with exec.
Notation "x <- m ;; k" := (bind m (fun x => k))
  (at level 61, m at next level, right associativity) : exec_scope.
Notation "m ;; k" := (bind m (fun _ => k))
  (at level 61, right associativity) : exec_scope.

End Host.

(* ================================================================== *)
(** * src/logger.ts

    The entry points the program calls.  The logger is a collaborator:
    a call is recorded with its arguments; what the sink prints, which
    depends on the build-mode flag, is not modelled. *)

Module Logger.
Import Host.

Definition error (err : Reported) (context : option Js.Obj) : Exec unit :=
  emit (LoggerError err context).

Definition debug (message : string) (context : option Js.Obj) : Exec unit :=
  emit (LoggerDebug message context).

End Logger.

(* ================================================================== *)
(** * src/main.ts *)

Module Main.
Import Host.

Definition phase (p : string) : option Js.Obj := Some [("phase", Js.Str p)].

(** [function frame()], closed over [gpuContext] and [device]. *)
Definition frame (self : FrameClosure) (gpu : Frame) : Exec unit :=
  try_catch
    (mayThrow (ContextGetCurrentTexture (gpuContext self))
              (getCurrentTexture_throws gpu) ;;
     mayThrow TextureCreateView (createView_throws gpu) ;;
     mayThrow (DeviceCreateCommandEncoder (device self))
              (createCommandEncoder_throws gpu) ;;
     mayThrow (EncoderBeginRenderPass
                 [("r", "0.1"); ("g", "0.2"); ("b", "0.35"); ("a", "1.0")]
                 "clear" "store")
              (beginRenderPass_throws gpu) ;;
     mayThrow PassEnd (end_throws gpu) ;;
     mayThrow EncoderFinish (finish_throws gpu) ;;
     mayThrow (QueueSubmit (device self)) (submit_throws gpu) ;;
     requestAnimationFrame self)%exec
    (fun error =>
       (err <- toError error ;;
        Logger.error err (phase "render_frame"))%exec).

(** [async function main()] *)
Definition main (page : Page) : Exec unit :=
  (Logger.debug "Starting WebGPU initialization" None ;;
   canvas <- returns (DocumentGetElementById "webgpu-canvas")
                     (getElementById page "webgpu-canvas") ;;
   match canvas with
   | None =>
       throw (ThrownAppError
                (Errors.CanvasNotFoundError (captureStack page) Js.Undefined))
   | Some canvas =>
   canvasWidth <- returns CanvasWidth (width canvas) ;;
   canvasHeight <- returns CanvasHeight (height canvas) ;;
   Logger.debug "Canvas found"
     (Some [("width", Js.Num canvasWidth);
            ("height", Js.Num canvasHeight)]) ;;
   gpu <- returns GpuInNavigator (navigator_gpu page) ;;
   match gpu with
   | None =>
       throw (ThrownAppError
                (Errors.WebGPUUnavailableError (captureStack page)
                                               Js.Undefined))
   | Some gpu =>
   Logger.debug "WebGPU is available in navigator" None ;;
   Logger.debug "Requesting GPU adapter" None ;;
   adapter <- returns GpuRequestAdapter (requestAdapter gpu) ;;
   match adapter with
   | None =>
       throw (ThrownAppError
                (Errors.AdapterNotFoundError (captureStack page)
                                             Js.Undefined))
   | Some adapter =>
   Logger.debug "GPU adapter obtained" None ;;
   device <- try_catch
               (Logger.debug "Requesting GPU device" None ;;
                await AdapterRequestDevice (requestDevice adapter))
               (fun error =>
                  throw (ThrownAppError
                           (Errors.DeviceRequestFailedError
                              (captureStack page) (caught error)))) ;;
   Logger.debug "GPU device obtained" None ;;
   Logger.debug "Getting WebGPU canvas context" None ;;
   context <- returns (CanvasGetContext "webgpu")
                      (getContext canvas "webgpu") ;;
   match context with
   | None =>
       throw (ThrownAppError
                (Errors.ContextInitFailedError (captureStack page)
                                               Js.Undefined))
   | Some gpuContext =>
   format <- returns GpuGetPreferredCanvasFormat
                     (getPreferredCanvasFormat gpu) ;;
   Logger.debug "Configuring canvas context"
     (Some [("format", Js.Str format);
            ("alphaMode", Js.Str "premultiplied")]) ;;
   emit (ContextConfigure gpuContext device format "premultiplied") ;;
   Logger.debug "Canvas context configured successfully" None ;;
   Logger.debug "Starting render loop" None ;;
   requestAnimationFrame (mkFrameClosure gpuContext device) ;;
   Logger.debug "Initialization complete, render loop started" None
   end end end end)%exec.

(** [main().catch((err) => logger.error(..., { phase:
    "main_initialization" }))]: the module's top-level statement. *)
Definition main_catch (page : Page) : Exec unit :=
  try_catch (main page)
    (fun err =>
       (err' <- toError err ;;
        Logger.error err' (phase "main_initialization"))%exec).

(** The host's frame scheduling: at an animation frame the callbacks
    registered so far run once each, in order; those they register
    wait for the next frame.  An exception that escapes a callback
    (from [frame], one that [String] threw in its [catch]) is the
    host's to report and stops nothing else. *)
Definition runCallback (gpu : Frame) (w : World) (callback : FrameClosure)
  : World :=
  snd (frame callback gpu w).

Definition animationFrame (w : World) (gpu : Frame) : World :=
  fold_left (runCallback gpu) (rafQueue w) (mkWorld (calls w) []).

(** The page's life: the script runs, then the animation frames. *)
Definition run (page : Page) (frames : list Frame) : World :=
  fold_left animationFrame frames (snd (main_catch page initial)).

End Main.

(* ================================================================== *)
(** * Observing a run: steps attempted, states reached *)

Module Pipeline.
Import Host.

Fixpoint filterMap {A B} (f : A -> option B) (l : list A) : list B :=
  match l with
  | [] => []
  | a :: rest =>
      match f a with
      | Some b => b :: filterMap f rest
      | None => filterMap f rest
      end
  end.

(** The five acquisition steps of [main], in program order. *)
Inductive Step : Type :=
| SurfaceLookup
| CapabilityCheck
| AdapterRequest
| DeviceRequest
| ContextConfiguration.

Definition all_steps : list Step :=
  [SurfaceLookup; CapabilityCheck; AdapterRequest; DeviceRequest;
   ContextConfiguration].

(** The code each step is to fail with. *)
Definition designated (s : Step) : Errors.ErrorCode :=
  match s with
  | SurfaceLookup => Errors.mkErrorCode Errors.not_found Errors.canvas
  | CapabilityCheck => Errors.mkErrorCode Errors.unavailable Errors.webgpu
  | AdapterRequest => Errors.mkErrorCode Errors.not_found Errors.adapter
  | DeviceRequest => Errors.mkErrorCode Errors.failed Errors.device
  | ContextConfiguration =>
      Errors.mkErrorCode Errors.initialization_failed Errors.context
  end.

(** The host call that opens each step. *)
Definition step_of_call (e : Event) : option Step :=
  match e with
  | DocumentGetElementById _ => Some SurfaceLookup
  | GpuInNavigator => Some CapabilityCheck
  | GpuRequestAdapter => Some AdapterRequest
  | AdapterRequestDevice => Some DeviceRequest
  | CanvasGetContext _ => Some ContextConfiguration
  | _ => None
  end.

(** The steps a run attempted, in the order it attempted them. *)
Definition attempted (w : World) : list Step :=
  filterMap step_of_call (trace w).

(** The first step at which the page makes initialization fail. *)
Definition first_failure (page : Page) : option Step :=
  match getElementById page "webgpu-canvas" with
  | None => Some SurfaceLookup
  | Some canvas =>
      match navigator_gpu page with
      | None => Some CapabilityCheck
      | Some gpu =>
          match requestAdapter gpu with
          | None => Some AdapterRequest
          | Some adapter =>
              match requestDevice adapter with
              | Rejected _ => Some DeviceRequest
              | Resolved _ =>
                  match getContext canvas "webgpu" with
                  | None => Some ContextConfiguration
                  | Some _ => None
                  end
              end
          end
      end
  end.

(** The steps up to and including [s]. *)
Definition through (s : Step) : list Step :=
  match s with
  | SurfaceLookup => firstn 1 all_steps
  | CapabilityCheck => firstn 2 all_steps
  | AdapterRequest => firstn 3 all_steps
  | DeviceRequest => firstn 4 all_steps
  | ContextConfiguration => firstn 5 all_steps
  end.

(** The states of the specification's state machine. *)
Inductive PipelineState : Type :=
| Idle
| TargetResolved
| CapabilityChecked
| AdapterAcquired
| DeviceAcquired
| ContextConfigured
| Running
| Failed (code : Errors.ErrorCode).

Definition chain : list PipelineState :=
  [Idle; TargetResolved; CapabilityChecked; AdapterAcquired;
   DeviceAcquired; ContextConfigured; Running].

(** The program reports each state it reaches with a debug line of
    its own; these lines mark the states in a trace. *)
Definition reached (e : Event) : option PipelineState :=
  match e with
  | LoggerDebug m _ =>
      if String.eqb m "Canvas found" then Some TargetResolved
      else if String.eqb m "WebGPU is available in navigator"
           then Some CapabilityChecked
      else if String.eqb m "GPU adapter obtained" then Some AdapterAcquired
      else if String.eqb m "GPU device obtained" then Some DeviceAcquired
      else if String.eqb m "Canvas context configured successfully"
           then Some ContextConfigured
      else if String.eqb m "Initialization complete, render loop started"
           then Some Running
      else None
  | _ => None
  end.

(** The states a run went through before it ended, from [Idle]. *)
Definition progress (w : World) : list PipelineState :=
  Idle :: filterMap reached (trace w).

(** The state a run of [main] ends in: [Failed] with the code of the
    [AppError] it threw, else the last state it reached.  A thrown
    value that is no [AppError] has no state. *)
Definition final_state (r : Completion unit * World) : option PipelineState :=
  match fst r with
  | Normal _ => Some (last (progress (snd r)) Idle)
  | Abrupt (ThrownAppError e) => Some (Failed (Errors.code e))
  | Abrupt (ThrownValue _) => None
  end.

Definition isRequestAnimationFrame (e : Event) : bool :=
  match e with
  | RequestAnimationFrame _ => true
  | _ => false
  end.

Definition isQueueSubmit (e : Event) : bool :=
  match e with
  | QueueSubmit _ => true
  | _ => false
  end.

Definition isLoggerError (e : Event) : bool :=
  match e with
  | LoggerError _ _ => true
  | _ => false
  end.

Definition count (p : Event -> bool) (w : World) : nat :=
  List.length (filter p (trace w)).

(** The first GPU call of a frame that throws, with what it throws. *)
Definition first_throw (gpu : Frame) : option Js.Value :=
  match getCurrentTexture_throws gpu with
  | Some x => Some x
  | None =>
  match createView_throws gpu with
  | Some x => Some x
  | None =>
  match createCommandEncoder_throws gpu with
  | Some x => Some x
  | None =>
  match beginRenderPass_throws gpu with
  | Some x => Some x
  | None =>
  match end_throws gpu with
  | Some x => Some x
  | None =>
  match finish_throws gpu with
  | Some x => Some x
  | None => submit_throws gpu
  end end end end end end.

Definition healthy_frame : Frame :=
  mkFrame None None None None None None None.

End Pipeline.

(* ================================================================== *)
(** * Sample pages *)

Module Samples.
Import Host.

(** A 300 by 150 canvas whose ["webgpu"] context is [ctx]. *)
Definition canvas (ctx : option GPUCanvasContext) : HTMLCanvasElement :=
  mkCanvas (Js.Finite false 75 2) (Js.Finite false 75 1)
           (fun id => if String.eqb id "webgpu" then ctx else None).

Definition document (c : option HTMLCanvasElement)
  : string -> option HTMLCanvasElement :=
  fun id => if String.eqb id "webgpu-canvas" then c else None.

Definition healthy : Page :=
  mkPage (document (Some (canvas (Some 1%positive))))
         (Some (mkGPU (Some (mkGPUAdapter (Resolved 2%positive)))
                      "bgra8unorm"))
         (Some "Error at main").

Definition no_canvas : Page :=
  mkPage (document None) (navigator_gpu healthy) (captureStack healthy).

Definition device_rejects (x : Js.Value) : Page :=
  mkPage (getElementById healthy)
         (Some (mkGPU (Some (mkGPUAdapter (Rejected x))) "bgra8unorm"))
         (captureStack healthy).

Definition lost_surface : Frame :=
  mkFrame (Some (Js.ErrorObject "InvalidStateError" "surface lost"))
          None None None None None None.

End Samples.

(* ================================================================== *)
(** * The specification's tables, in the code's names *)

Module Taxonomy.
Import Errors.

(** The six codes in use, each with its message. *)
Definition messageTable : list (ErrorCode * string) :=
  [ (mkErrorCode unavailable webgpu,
     "WebGPU is not available in this environment.");
    (mkErrorCode not_found canvas, "Canvas element not found.");
    (mkErrorCode not_found adapter, "No suitable GPU adapter found.");
    (mkErrorCode failed device, "Failed to request a GPU device.");
    (mkErrorCode initialization_failed context,
     "Failed to initialize WebGPU canvas context.");
    (mkErrorCode failed pipeline, "Failed to create render pipeline.") ].

Definition definedCodes : list ErrorCode := map fst messageTable.

Definition fallbackMessage : string :=
  "Something went wrong. Please try again later.".

(** The visibility table of section 4.1 ([api] is [webgpu],
    [display_target] is [canvas]). *)
Definition visibilityOf (s : Surface) : ErrorVisibility :=
  match s with
  | webgpu => user
  | adapter => user
  | device => log
  | context => user
  | canvas => user
  | pipeline => log
  end.

(** The keys a serialized error has, given its cause and stack. *)
Definition jsonKeys (cause0 : Js.Value) (stack0 : option string)
  : list string :=
  ["code"; "message"; "type"; "surface"; "visibility"]
    ++ (if Js.truthy cause0 then ["cause"] else [])
    ++ (if Js.truthy (Js.ofOptString stack0) then ["stack"] else []).

End Taxonomy.

(* ================================================================== *)
(** * src/logger.ts: what the entry points write to the console *)

Module Console.

#[local] Set Warnings "-register-all".

(** What is handed to the console: a value, or a record whose
    properties are data again ([errorInfo] nests the context). *)
Inductive Data : Type :=
| Val (v : Js.Value)
| Rec (fields : list (string * Data)).

(** A context object, [Record<string, unknown>]. *)
Definition ofObj (o : Js.Obj) : Data :=
  Rec (map (fun kv => (fst kv, Val (snd kv))) o).

Inductive Call : Type :=
| Group (args : list Data)
| GroupEnd
| Error (args : list Data)
| Warn (args : list Data)
| Info (args : list Data)
| Debug (args : list Data).

(** The first parameter of [error]: [Error | AppError]. *)
Inductive ErrorArg : Type :=
| PlainError (name message : string) (stack : option string)
| OfAppError (e : Errors.AppError).

Definition name_of (err : ErrorArg) : string :=
  match err with
  | PlainError n _ _ => n
  | OfAppError e => Errors.name e
  end.

Definition message_of (err : ErrorArg) : string :=
  match err with
  | PlainError _ m _ => m
  | OfAppError e => Errors.message e
  end.

Definition stack_of (err : ErrorArg) : option string :=
  match err with
  | PlainError _ _ st => st
  | OfAppError e => Errors.stack e
  end.

Definition hasProp (k : string) (o : list (string * Data)) : bool :=
  existsb (fun kd => String.eqb (fst kd) k) o.

Fixpoint getProp (k : string) (o : list (string * Data)) : option Data :=
  match o with
  | [] => None
  | (k', d) :: rest => if String.eqb k' k then Some d else getProp k rest
  end.

(** [o.k = d] *)
Fixpoint setProp (k : string) (d : Data) (o : list (string * Data))
  : list (string * Data) :=
  match o with
  | [] => [(k, d)]
  | (k', d') :: rest =>
      if String.eqb k' k then (k', d) :: rest
      else (k', d') :: setProp k d rest
  end.

Definition str (s : string) : Data := Val (Js.Str s).

(** The record [errorInfo] that [error] builds.  [timestamp] is
    [new Date().toISOString()]. *)
Definition errorInfo (timestamp : string) (err : ErrorArg)
           (context : option Js.Obj) : list (string * Data) :=
  let info :=
    [ ("timestamp", str timestamp);
      ("name", str (name_of err));
      ("message", str (message_of err));
      ("stack", Val (Js.ofOptString (stack_of err))) ] in
  let info :=
    match err with
    | OfAppError e =>
        let info := setProp "code" (str (Errors.code e)) info in
        if Js.truthy (Errors.cause e)
        then setProp "cause" (Val (Errors.cause e)) info
        else info
    | PlainError _ _ _ => info
    end in
  match context with
  | Some c => setProp "additionalContext" (ofObj c) info
  | None => info
  end.

(** [export function error(error, context?)]; [isDevelopment] is
    [import.meta.env.DEV]. *)
Definition error (isDevelopment : bool) (timestamp : string)
           (err : ErrorArg) (context : option Js.Obj) : list Call :=
  if negb isDevelopment then []
  else
    [ Group [str ("%c[ERROR] " ++ name_of err);
             str "color: red; font-weight: bold;"];
      Error [str "Message:"; str (message_of err)] ]
    ++ match err with
       | OfAppError e =>
           Error [str "Code:"; str (Errors.code e)]
             :: (if Js.truthy (Errors.cause e)
                 then [Error [str "Cause:"; Val (Errors.cause e)]]
                 else [])
       | PlainError _ _ _ => []
       end
    ++ (if Js.truthy (Js.ofOptString (stack_of err))
        then [Error [str "Stack:"; Val (Js.ofOptString (stack_of err))]]
        else [])
    ++ match context with
       | Some c => [Error [str "Additional Context:"; ofObj c]]
       | None => []
       end
    ++ [ Error [str "Full Error Object:";
                Rec (errorInfo timestamp err context)];
         GroupEnd ].

(** [context || ""]: an object is truthy, so only a missing context
    gives the empty string. *)
Definition contextOrEmpty (context : option Js.Obj) : Data :=
  match context with
  | Some c => ofObj c
  | None => str ""
  end.

Definition warn (isDevelopment : bool) (message : string)
           (context : option Js.Obj) : list Call :=
  if negb isDevelopment then []
  else [Warn [str ("[WARN] " ++ message); contextOrEmpty context]].

Definition info (isDevelopment : bool) (message : string)
           (context : option Js.Obj) : list Call :=
  if negb isDevelopment then []
  else [Info [str ("[INFO] " ++ message); contextOrEmpty context]].

Definition debug (isDevelopment : bool) (message : string)
           (context : option Js.Obj) : list Call :=
  if negb isDevelopment then []
  else [Debug [str ("[DEBUG] " ++ message); contextOrEmpty context]].

(** What the engine supplies when a trace is replayed through the
    logger: [String(v)], the [stack] of an error object, the stack
    captured by [new Error(...)], and the clock at each call. *)
Record Engine : Type := mkEngine {
  toString : Js.Value -> string;
  stackOf : Js.Value -> option string;
  wrapStack : option string;
  now : nat -> string
}.

(** The [Error] that [main.ts] hands to [logger.error]. *)
Definition errorArg (engine : Engine) (r : Host.Reported) : ErrorArg :=
  match r with
  | Host.ReportedAppError e => OfAppError e
  | Host.ReportedError (Js.ErrorObject n m as v) =>
      PlainError n m (stackOf engine v)
  | Host.ReportedError v =>
      PlainError "Error" (toString engine v) (wrapStack engine)
  | Host.ReportedWrapped v =>
      PlainError "Error" (toString engine v) (wrapStack engine)
  end.

(** The console calls of one call made by the program, the [n]th. *)
Definition sink (isDevelopment : bool) (engine : Engine) (n : nat)
           (e : Host.Event) : list Call :=
  match e with
  | Host.LoggerDebug m ctx => debug isDevelopment m ctx
  | Host.LoggerError r ctx =>
      error isDevelopment (now engine n) (errorArg engine r) ctx
  | _ => []
  end.

Fixpoint replayFrom (isDevelopment : bool) (engine : Engine) (n : nat)
         (events : list Host.Event) : list Call :=
  match events with
  | [] => []
  | e :: rest =>
      sink isDevelopment engine n e
        ++ replayFrom isDevelopment engine (S n) rest
  end.

(** The console of a run. *)
Definition output (isDevelopment : bool) (engine : Engine) (w : Host.World)
  : list Call :=
  replayFrom isDevelopment engine 0 (Host.trace w).

Definition isGroup (c : Call) : bool :=
  match c with Group _ => true | _ => false end.

Definition isGroupEnd (c : Call) : bool :=
  match c with GroupEnd => true | _ => false end.

Definition isError (c : Call) : bool :=
  match c with Error _ => true | _ => false end.

Definition isDebug (c : Call) : bool :=
  match c with Debug _ => true | _ => false end.

(** The label of a [console.error] line. *)
Definition label (c : Call) : option string :=
  match c with
  | Error (Val (Js.Str l) :: _) => Some l
  | _ => None
  end.

Definition hasLabel (l : string) (cs : list Call) : bool :=
  existsb (fun c => match label c with
                    | Some l' => String.eqb l' l
                    | None => false
                    end) cs.

End Console.

(* ================================================================== *)
(** * The earlier src/main.ts (first part of src/unnamed/part_000)

    The version before the structured errors: it writes to the console
    itself, returns where the later version throws, and its [frame] has
    no [try]. *)

Module Legacy.
Import Host.

(** Its calls: those on the host, and [console.error]. *)
Inductive Event : Type :=
| Call (e : Host.Event)
| ConsoleError (args : list Js.Value).

Record World : Type := mkWorld {
  calls : list Event;
  rafQueue : list FrameClosure
}.

Definition initial : World := mkWorld [] [].

Definition trace (w : World) : list Event := rev (calls w).

Definition Exec (A : Type) : Type := World -> Completion A * World.

Definition ret {A} (a : A) : Exec A := fun w => (Normal a, w).

Definition throw {A} (t : Thrown) : Exec A := fun w => (Abrupt t, w).

Definition bind {A B} (m : Exec A) (k : A -> Exec B) : Exec B :=
  fun w =>
    match m w with
    | (Normal a, w') => k a w'
    | (Abrupt t, w') => (Abrupt t, w')
    end.

Definition try_catch {A} (body : Exec A) (handler : Thrown -> Exec A)
  : Exec A :=
  fun w =>
    match body w with
    | (Normal a, w') => (Normal a, w')
    | (Abrupt t, w') => handler t w'
    end.

Definition emit (e : Event) : Exec unit :=
  fun w => (Normal tt, mkWorld (e :: calls w) (rafQueue w)).

Definition returns {A} (e : Host.Event) (a : A) : Exec A :=
  bind (emit (Call e)) (fun _ => ret a).

Definition mayThrow (e : Host.Event) (x : option Js.Value) : Exec unit :=
  bind (emit (Call e)) (fun _ =>
    match x with
    | Some v => throw (ThrownValue v)
    | None => ret tt
    end).

Definition await {A} (e : Host.Event) (p : Settled A) : Exec A :=
  bind (emit (Call e)) (fun _ =>
    match p with
    | Resolved a => ret a
    | Rejected reason => throw (ThrownValue reason)
    end).

Definition requestAnimationFrame (callback : FrameClosure) : Exec unit :=
  fun w =>
    (Normal tt,
     mkWorld (Call (RequestAnimationFrame callback) :: calls w)
             (rafQueue w ++ [callback])).

Definition console_error (args : list Js.Value) : Exec unit :=
  emit (ConsoleError args).

Declare Scope legacy_scope.
Delimit Scope legacy_scope with legacy.
Notation "x <- m ;; k" := (bind m (fun x => k))
  (at level 61, m at next level, right associativity) : legacy_scope.
Notation "m ;; k" := (bind m (fun _ => k))
  (at level 61, right associativity) : legacy_scope.

(** [function frame()]: no [try]; what a call throws leaves the
    callback. *)
Definition frame (self : FrameClosure) (gpu : Frame) : Exec unit :=
  (mayThrow (ContextGetCurrentTexture (gpuContext self))
            (getCurrentTexture_throws gpu) ;;
   mayThrow TextureCreateView (createView_throws gpu) ;;
   mayThrow (DeviceCreateCommandEncoder (device self))
            (createCommandEncoder_throws gpu) ;;
   mayThrow (EncoderBeginRenderPass
               [("r", "0.1"); ("g", "0.2"); ("b", "0.35"); ("a", "1.0")]
               "clear" "store")
            (beginRenderPass_throws gpu) ;;
   mayThrow PassEnd (end_throws gpu) ;;
   mayThrow EncoderFinish (finish_throws gpu) ;;
   mayThrow (QueueSubmit (device self)) (submit_throws gpu) ;;
   requestAnimationFrame self)%legacy.

(** [async function main()]: each guard logs and returns. *)
Definition main (page : Page) : Exec unit :=
  (canvas <- returns (DocumentGetElementById "webgpu-canvas")
                     (getElementById page "webgpu-canvas") ;;
   match canvas with
   | None => console_error [Js.Str "Canvas not found"]
   | Some canvas =>
   gpu <- returns GpuInNavigator (navigator_gpu page) ;;
   match gpu with
   | None => console_error [Js.Str "WebGPU not supported in this browser."]
   | Some gpu =>
   adapter <- returns GpuRequestAdapter (requestAdapter gpu) ;;
   match adapter with
   | None => console_error [Js.Str "No GPU adapter found."]
   | Some adapter =>
   device <- await AdapterRequestDevice (requestDevice adapter) ;;
   context <- returns (CanvasGetContext "webgpu")
                      (getContext canvas "webgpu") ;;
   match context with
   | None => console_error [Js.Str "Failed to get WebGPU context."]
   | Some gpuContext =>
   format <- returns GpuGetPreferredCanvasFormat
                     (getPreferredCanvasFormat gpu) ;;
   emit (Call (ContextConfigure gpuContext device format "premultiplied")) ;;
   requestAnimationFrame (mkFrameClosure gpuContext device)
   end end end end)%legacy.

(** [main().catch((err) => { console.error(err); })] *)
Definition main_catch (page : Page) : Exec unit :=
  try_catch (main page) (fun err => console_error [caught err]).

Definition runCallback (gpu : Frame) (w : World) (callback : FrameClosure)
  : World :=
  snd (frame callback gpu w).

Definition animationFrame (w : World) (gpu : Frame) : World :=
  fold_left (runCallback gpu) (rafQueue w) (mkWorld (calls w) []).

Definition run (page : Page) (frames : list Frame) : World :=
  fold_left animationFrame frames (snd (main_catch page initial)).

(** The host calls of a run, in order. *)
Fixpoint hostCalls (events : list Event) : list Host.Event :=
  match events with
  | [] => []
  | Call e :: rest => e :: hostCalls rest
  | ConsoleError _ :: rest => hostCalls rest
  end.

Fixpoint consoleErrors (events : list Event) : list (list Js.Value) :=
  match events with
  | [] => []
  | Call _ :: rest => consoleErrors rest
  | ConsoleError args :: rest => args :: consoleErrors rest
  end.

End Legacy.

(* ================================================================== *)
(** * More observations on a run *)

Module Observe.
Import Host.

Definition isLogger (e : Event) : bool :=
  match e with
  | LoggerDebug _ _ | LoggerError _ _ => true
  | _ => false
  end.

Definition isLoggerDebug (e : Event) : bool :=
  match e with
  | LoggerDebug _ _ => true
  | _ => false
  end.

(** The debug lines [main] has logged when a step fails. *)
Definition debugLines (st : Pipeline.Step) : nat :=
  match st with
  | Pipeline.SurfaceLookup => 1
  | Pipeline.CapabilityCheck => 2
  | Pipeline.AdapterRequest => 4
  | Pipeline.DeviceRequest => 6
  | Pipeline.ContextConfiguration => 8
  end.

(** The class of the error [main] throws when a step fails. *)
Definition className (st : Pipeline.Step) : string :=
  match st with
  | Pipeline.SurfaceLookup => "CanvasNotFoundError"
  | Pipeline.CapabilityCheck => "WebGPUUnavailableError"
  | Pipeline.AdapterRequest => "AdapterNotFoundError"
  | Pipeline.DeviceRequest => "DeviceRequestFailedError"
  | Pipeline.ContextConfiguration => "ContextInitFailedError"
  end.

Definition isDeviceRequest (st : Pipeline.Step) : bool :=
  match st with
  | Pipeline.DeviceRequest => true
  | _ => false
  end.

(** What the device request of the page rejects with, if the
    initialization gets there and it rejects. *)
Definition rejection (page : Page) : option Js.Value :=
  match getElementById page "webgpu-canvas", navigator_gpu page with
  | Some _, Some gpu =>
      match requestAdapter gpu with
      | Some adapter =>
          match requestDevice adapter with
          | Rejected reason => Some reason
          | Resolved _ => None
          end
      | None => None
      end
  | _, _ => None
  end.

(** What a successful initialization acquired: the context, the
    device and the preferred format. *)
Definition acquired (page : Page)
  : option (GPUCanvasContext * GPUDevice * string) :=
  match getElementById page "webgpu-canvas", navigator_gpu page with
  | Some canvas, Some gpu =>
      match requestAdapter gpu with
      | Some adapter =>
          match requestDevice adapter, getContext canvas "webgpu" with
          | Resolved dev, Some ctx =>
              Some (ctx, dev, getPreferredCanvasFormat gpu)
          | _, _ => None
          end
      | None => None
      end
  | _, _ => None
  end.

(** What the earlier [main] prints when a guard finds nothing. *)
Definition legacyMessage (st : Pipeline.Step) : string :=
  match st with
  | Pipeline.SurfaceLookup => "Canvas not found"
  | Pipeline.CapabilityCheck => "WebGPU not supported in this browser."
  | Pipeline.AdapterRequest => "No GPU adapter found."
  | Pipeline.DeviceRequest => ""
  | Pipeline.ContextConfiguration => "Failed to get WebGPU context."
  end.

(** How [frame] completes after a call threw [x]: normally, unless
    [String(x)] throws in the [catch]. *)
Definition afterCatch (x : Js.Value) : Completion unit :=
  match Js.stringThrows x with
  | Some thrown => Abrupt (ThrownValue thrown)
  | None => Normal tt
  end.

(** The report of [x] to the logger: none when [String(x)] throws. *)
Definition report (x : Js.Value) (context : option Js.Obj) : list Event :=
  match Js.stringThrows x with
  | Some _ => []
  | None => [LoggerError (asError (ThrownValue x)) context]
  end.

Definition isConfigure (e : Event) : bool :=
  match e with
  | ContextConfigure _ _ _ _ => true
  | _ => false
  end.

(** The seven GPU calls of a frame, in program order. *)
Definition gpuCalls (self : FrameClosure) : list Event :=
  [ ContextGetCurrentTexture (gpuContext self);
    TextureCreateView;
    DeviceCreateCommandEncoder (device self);
    EncoderBeginRenderPass
      [("r", "0.1"); ("g", "0.2"); ("b", "0.35"); ("a", "1.0")]
      "clear" "store";
    PassEnd;
    EncoderFinish;
    QueueSubmit (device self) ].

(** What each of the seven calls does in a frame. *)
Definition throwsList (gpu : Frame) : list (option Js.Value) :=
  [ getCurrentTexture_throws gpu; createView_throws gpu;
    createCommandEncoder_throws gpu; beginRenderPass_throws gpu;
    end_throws gpu; finish_throws gpu; submit_throws gpu ].

(** How many calls are made up to and including the first that
    throws; all of them when none throws. *)
Fixpoint callsMade (throws : list (option Js.Value)) : nat :=
  match throws with
  | [] => 0
  | Some _ :: _ => 1
  | None :: rest => S (callsMade rest)
  end.

Definition healthy (gpu : Frame) : bool :=
  match Pipeline.first_throw gpu with
  | None => true
  | Some _ => false
  end.

(** The frames that run: those before the first failing one, and it. *)
Fixpoint effective (frames : list Frame) : list Frame :=
  match frames with
  | [] => []
  | gpu :: rest => if healthy gpu then gpu :: effective rest else [gpu]
  end.

(** What the first failing frame throws from its GPU calls. *)
Fixpoint firstThrown (frames : list Frame) : option Js.Value :=
  match frames with
  | [] => None
  | gpu :: rest =>
      match Pipeline.first_throw gpu with
      | Some x => Some x
      | None => firstThrown rest
      end
  end.

(** How many reports a run of these frames makes to the logger: one
    for the first failing frame, when [String] can convert what it
    threw. *)
Definition logged (frames : list Frame) : nat :=
  match firstThrown frames with
  | Some x => List.length (report x None)
  | None => 0
  end.

(** The frames before the first failing one. *)
Fixpoint leadingHealthy (frames : list Frame) : nat :=
  match frames with
  | [] => 0
  | gpu :: rest => if healthy gpu then S (leadingHealthy rest) else 0
  end.

(** The reads of [canvas.width] and [canvas.height]. *)
Definition isCanvasRead (e : Event) : bool :=
  match e with
  | CanvasWidth | CanvasHeight => true
  | _ => false
  end.

(** The calls made on the host other than those two reads. *)
Definition methodCalls (events : list Event) : list Event :=
  filter (fun e => negb (isLogger e || isCanvasRead e)) events.

(** Two worlds, one of each version of [main.ts], that saw the same
    host calls, the reads of the canvas size apart, and hold the same
    waiting callbacks. *)
Definition same_host (lw : Legacy.World) (w : World) : Prop :=
  Legacy.rafQueue lw = rafQueue w
  /\ Legacy.hostCalls (Legacy.calls lw) = methodCalls (calls w).

(** Whether the character occurs in the string. *)
Fixpoint contains (c : ascii) (s : string) : bool :=
  match s with
  | EmptyString => false
  | String c' rest => Ascii.eqb c' c || contains c rest
  end.

(** The six subclasses of [AppError], in the order of the file. *)
Definition subclasses
  : list (string * (option string -> Js.Value -> Errors.AppError)) :=
  [ ("WebGPUUnavailableError", Errors.WebGPUUnavailableError);
    ("CanvasNotFoundError", Errors.CanvasNotFoundError);
    ("AdapterNotFoundError", Errors.AdapterNotFoundError);
    ("DeviceRequestFailedError", Errors.DeviceRequestFailedError);
    ("ContextInitFailedError", Errors.ContextInitFailedError);
    ("PipelineCreationFailedError", Errors.PipelineCreationFailedError) ].

End Observe.

(* ================================================================== *)
(** * Properties of the error taxonomy *)

Section ErrorTaxonomy.
Import Errors.

Example split_code :
  Js.split ":" (mkErrorCode failed device) = ["failed"; "device"].
Proof. reflexivity. Qed.

Example split_no_separator : Js.split ":" "failed" = ["failed"].
Proof. reflexivity. Qed.

Example toJSON_device :
  call toJSON
    (DeviceRequestFailedError (Some "at main") (Js.Num (Js.Zero false)))
  = [ ("code", Js.Str "failed:device");
      ("message", Js.Str "Failed to request a GPU device.");
      ("type", Js.Str "failed");
      ("surface", Js.Str "device");
      ("visibility", Js.Str "log");
      ("stack", Js.Str "at main") ].
Proof. reflexivity. Qed.

(** Splitting a well-typed code gives back its two halves. *)
Lemma split_mkErrorCode (t : ErrorType) (s : Surface) :
  Js.split ":" (mkErrorCode t s) = [ErrorType_str t; Surface_str s].
Proof. destruct t, s; reflexivity. Qed.

(** What the constructor leaves in each field. *)
Lemma new_AppError_fields (n : string) (captured : option string)
      (c : ErrorCode) (x : Js.Value) :
  new_AppError n captured c x
  = mkAppError n (getMessageByErrorCode c) captured
               (nth_error (Js.split ":" c) 0)
               (nth_error (Js.split ":" c) 1) c x.
Proof. reflexivity. Qed.

Lemma new_AppError_surface (n : string) (captured : option string)
      (t : ErrorType) (s : Surface) (x : Js.Value) :
  surface (new_AppError n captured (mkErrorCode t s) x)
  = Some (Surface_str s).
Proof. rewrite new_AppError_fields, split_mkErrorCode. reflexivity. Qed.

Lemma lookupVisibility_Surface (s : Surface) :
  lookupVisibility visibilityBySurface (Some (Surface_str s))
  = Found (Taxonomy.visibilityOf s).
Proof. destruct s; reflexivity. Qed.

Lemma getVisibility_new (n : string) (captured : option string)
      (t : ErrorType) (s : Surface) (x : Js.Value) :
  call getVisibility (new_AppError n captured (mkErrorCode t s) x)
  = Found (Taxonomy.visibilityOf s).
Proof.
  unfold call, getVisibility, bind, read, ret. cbn [fst].
  rewrite new_AppError_surface. apply lookupVisibility_Surface.
Qed.

(** The read-only methods leave the receiver as it was. *)
Lemma getVisibility_pure (e : AppError) : after getVisibility e = e.
Proof. reflexivity. Qed.

Lemma toJSON_pure (e : AppError) : after toJSON e = e.
Proof. reflexivity. Qed.

Lemma toJSON_keys (e : AppError) :
  map fst (call toJSON e) = Taxonomy.jsonKeys (cause e) (stack e).
Proof.
  destruct e as [n m st ty su co ca].
  unfold call, toJSON, getVisibility, bind, read, ret, Taxonomy.jsonKeys.
  cbn [fst snd name message stack type surface code cause].
  destruct (Js.truthy ca), (Js.truthy (Js.ofOptString st)); reflexivity.
Qed.

Lemma hasField_cause_keys (c : Js.Value) (st : option string) :
  existsb (fun k => String.eqb k "cause") (Taxonomy.jsonKeys c st)
  = Js.truthy c.
Proof.
  unfold Taxonomy.jsonKeys.
  destruct (Js.truthy c), (Js.truthy (Js.ofOptString st)); reflexivity.
Qed.

Lemma hasField_stack_keys (c : Js.Value) (st : option string) :
  existsb (fun k => String.eqb k "stack") (Taxonomy.jsonKeys c st)
  = Js.truthy (Js.ofOptString st).
Proof.
  unfold Taxonomy.jsonKeys.
  destruct (Js.truthy c), (Js.truthy (Js.ofOptString st)); reflexivity.
Qed.

Lemma hasField_keys (k : string) (o : Js.Obj) :
  Js.hasField k o = existsb (fun k' => String.eqb k' k) (map fst o).
Proof.
  unfold Js.hasField. induction o as [|[k' v] o IH]; cbn; [reflexivity|].
  now rewrite IH.
Qed.

Lemma toJSON_hasField_cause (e : AppError) :
  Js.hasField "cause" (call toJSON e) = Js.truthy (cause e).
Proof. now rewrite hasField_keys, toJSON_keys, hasField_cause_keys. Qed.

Lemma toJSON_hasField_stack (e : AppError) :
  Js.hasField "stack" (call toJSON e) = Js.truthy (Js.ofOptString (stack e)).
Proof. now rewrite hasField_keys, toJSON_keys, hasField_stack_keys. Qed.

Lemma toJSON_getField_cause (e : AppError) :
  Js.truthy (cause e) = true -> Js.getField "cause" (call toJSON e) = cause e.
Proof.
  destruct e as [n m st ty su co ca]. cbn [cause]. intros H.
  unfold call, toJSON, getVisibility, bind, read, ret.
  cbn [fst snd name message stack type surface code cause].
  rewrite H. destruct (Js.truthy (Js.ofOptString st)); reflexivity.
Qed.

Lemma getMessageByErrorCode_defined (c : ErrorCode) (m : string) :
  In (c, m) Taxonomy.messageTable -> getMessageByErrorCode c = m.
Proof.
  cbn. intros H.
  repeat (destruct H as [H|H]; [inversion H; reflexivity|]).
  contradiction.
Qed.

Lemma getMessageByErrorCode_undefined (c : ErrorCode) :
  ~ In c Taxonomy.definedCodes ->
  getMessageByErrorCode c = Taxonomy.fallbackMessage.
Proof.
  cbn. intros H. unfold getMessageByErrorCode.
  repeat match goal with
         | |- context [String.eqb c ?k] =>
             destruct (String.eqb_spec c k) as [->|_]; [exfalso; tauto|]
         end.
  reflexivity.
Qed.

(** C2.  [getMessageByErrorCode] is total on strings.  On each of the
    six defined codes it returns that code's entry of the fixed table
    (three of them spelled out), on every other string, hence on each
    of the eighteen well-typed codes without an entry, it returns the
    fallback "Something went wrong. Please try again later.". *)
Theorem getMessageByErrorCode_total :
  (forall c m, In (c, m) Taxonomy.messageTable ->
               getMessageByErrorCode c = m)
  /\ getMessageByErrorCode "not_found:canvas" = "Canvas element not found."
  /\ getMessageByErrorCode "not_found:adapter"
     = "No suitable GPU adapter found."
  /\ getMessageByErrorCode "failed:device"
     = "Failed to request a GPU device."
  /\ (forall c, ~ In c Taxonomy.definedCodes ->
                getMessageByErrorCode c
                = "Something went wrong. Please try again later.")
  /\ (forall t s,
         In (mkErrorCode t s) Taxonomy.definedCodes
         \/ getMessageByErrorCode (mkErrorCode t s)
            = "Something went wrong. Please try again later.").
Proof.
  split; [exact getMessageByErrorCode_defined|].
  repeat (split; [reflexivity|]).
  split; [exact getMessageByErrorCode_undefined|].
  intros t s. destruct t, s; cbn; tauto.
Qed.

Lemma getMessageByErrorCode_total_witness :
  getMessageByErrorCode "initialization_failed:context"
  = "Failed to initialize WebGPU canvas context."
  /\ getMessageByErrorCode "failed:canvas"
     = "Something went wrong. Please try again later.".
Proof.
  destruct getMessageByErrorCode_total as (Hdef & _ & _ & _ & Hundef & _).
  split.
  - apply Hdef. cbn. tauto.
  - apply Hundef. cbn. intros H.
    repeat (destruct H as [H|H]; [discriminate H|]). exact H.
Defined.

(** C3.  The visibility of an error depends on its surface alone: two
    errors built on the same surface have the same visibility whatever
    their error types, causes, class names and stacks, and that
    visibility is the table's: webgpu (api) -> user, adapter -> user,
    device -> log, context -> user, canvas (display_target) -> user,
    pipeline -> log. *)
Theorem visibility_by_surface_alone
        (s : Surface) (t1 t2 : ErrorType) (n1 n2 : string)
        (st1 st2 : option string) (x1 x2 : Js.Value) :
  call getVisibility (new_AppError n1 st1 (mkErrorCode t1 s) x1)
  = call getVisibility (new_AppError n2 st2 (mkErrorCode t2 s) x2)
  /\ call getVisibility (new_AppError n1 st1 (mkErrorCode t1 s) x1)
     = Found match s with
            | webgpu => user
            | adapter => user
            | device => log
            | context => user
            | canvas => user
            | pipeline => log
            end.
Proof.
  rewrite !getVisibility_new. split; [reflexivity|].
  destruct s; reflexivity.
Qed.

(** C4.  For every error, [shouldShowToUser()] is true exactly when its
    visibility is user or both, and [shouldLog()] exactly when it is log
    or both; on the six surfaces that makes webgpu, adapter, context and
    canvas shown and not logged, device and pipeline logged and not
    shown. *)
Theorem should_flags_follow_visibility :
  (forall e : AppError,
      (call shouldShowToUser e = true
       <-> (call getVisibility e = Found user
            \/ call getVisibility e = Found both))
      /\ (call shouldLog e = true
          <-> (call getVisibility e = Found log
               \/ call getVisibility e = Found both)))
  /\ (forall (n : string) (st : option string) (t : ErrorType) (s : Surface)
             (x : Js.Value),
         let e := new_AppError n st (mkErrorCode t s) x in
         call shouldShowToUser e
         = match s with
           | webgpu | adapter | context | canvas => true
           | device | pipeline => false
           end
         /\ call shouldLog e
            = match s with
              | webgpu | adapter | context | canvas => false
              | device | pipeline => true
              end).
Proof.
  split.
  - intros e. unfold call, shouldShowToUser, shouldLog, bind, ret.
    destruct (getVisibility e) as [v e'] eqn:E. cbn [fst].
    destruct v as [[| |]| |]; cbn; intuition congruence.
  - intros n st t s x e.
    pose proof (getVisibility_new n st t s x) as H. fold e in H.
    unfold call, shouldShowToUser, shouldLog, bind, ret in *.
    destruct (getVisibility e) as [v e'] eqn:E. cbn [fst] in *.
    subst v. destruct s; split; reflexivity.
Qed.

(** C9.  Serializing reads the error and changes nothing: serializing
    the same error twice gives the same output both times and leaves
    the error as it was; the output has the keys code, message, type,
    surface, visibility, then cause and stack when they are truthy.
    Classifying again gives what the error holds: the message of a
    constructed error is the message of its code. *)
Theorem toJSON_idempotent :
  (forall e : AppError,
      let (j1, e1) := toJSON e in
      let (j2, e2) := toJSON e1 in
      j1 = j2 /\ e1 = e /\ e2 = e
      /\ map fst j1 = Taxonomy.jsonKeys (cause e) (stack e))
  /\ (forall e : AppError,
         after getVisibility e = e
         /\ after shouldShowToUser e = e
         /\ after shouldLog e = e)
  /\ (forall (n : string) (st : option string) (c : ErrorCode) (x : Js.Value),
         let e := new_AppError n st c x in
         Js.getField "message" (call toJSON e)
         = Js.Str (getMessageByErrorCode (code e))
         /\ Js.getField "code" (call toJSON e) = Js.Str c).
Proof.
  split; [|split].
  - intros e.
    pose proof (toJSON_pure e) as Hp. pose proof (toJSON_keys e) as Hk.
    unfold after, call in *.
    destruct (toJSON e) as [j1 e1] eqn:E1. cbn [fst snd] in *. subst e1.
    rewrite E1. auto.
  - intros e. repeat split.
  - intros n st c x e. subst e. rewrite new_AppError_fields.
    unfold call, toJSON, getVisibility, bind, read, ret.
    cbn [fst snd name message stack type surface code cause].
    destruct (Js.truthy x), (Js.truthy (Js.ofOptString st));
      split; reflexivity.
Qed.

(** C10.  Serialization keeps a cause only when it is truthy.  An error
    constructed with cause 0, the empty string, false or null holds
    that cause in its field, yet its serialized form has no cause
    field; in general the serialized form has a cause field exactly
    when the stored cause is truthy, and then it is the stored cause.
    The stack goes through the same test. *)
Theorem toJSON_drops_falsy_cause :
  (forall (n : string) (st : option string) (c : ErrorCode) (x : Js.Value),
      In x [Js.Num (Js.Zero false); Js.Str ""; Js.Boolean false; Js.Null] ->
      let e := new_AppError n st c x in
      cause e = x /\ x <> Js.Undefined
      /\ Js.hasField "cause" (call toJSON e) = false)
  /\ (forall e : AppError,
         (Js.hasField "cause" (call toJSON e) = true
          <-> Js.truthy (cause e) = true)
         /\ (Js.truthy (cause e) = true ->
             Js.getField "cause" (call toJSON e) = cause e)
         /\ (Js.hasField "stack" (call toJSON e) = true
             <-> Js.truthy (Js.ofOptString (stack e)) = true))
  /\ (forall (n : string) (st : option string) (c : ErrorCode) (x : Js.Value),
         cause (new_AppError n st c x) = x
         /\ stack (new_AppError n st c x) = st).
Proof.
  split; [|split].
  - intros n st c x Hx e. subst e.
    rewrite toJSON_hasField_cause, new_AppError_fields. cbn [cause].
    cbn in Hx.
    repeat (destruct Hx as [Hx|Hx];
            [subst x; repeat split; discriminate|]).
    contradiction.
  - intros e. rewrite toJSON_hasField_cause, toJSON_hasField_stack.
    repeat split; auto using toJSON_getField_cause.
  - intros. split; reflexivity.
Qed.

Lemma toJSON_drops_falsy_cause_witness :
  let e := DeviceRequestFailedError (Some "at main") (Js.Num (Js.Zero false)) in
  (cause e = Js.Num (Js.Zero false)
   /\ Js.Num (Js.Zero false) <> Js.Undefined
   /\ Js.hasField "cause" (call toJSON e) = false)
  /\ Js.getField "cause" (call toJSON (CanvasNotFoundError None (Js.Str "x")))
     = Js.Str "x".
Proof.
  destruct toJSON_drops_falsy_cause as (Hfalsy & Hiff & _).
  split.
  - apply (Hfalsy "DeviceRequestFailedError" (Some "at main") "failed:device").
    cbn. tauto.
  - apply (Hiff (CanvasNotFoundError None (Js.Str "x"))). reflexivity.
Defined.

End ErrorTaxonomy.

(* ================================================================== *)
(** * Properties of the initialization pipeline and the render loop *)

Section PipelineAndLoop.
Import Host Pipeline.

Example healthy_page_runs :
  final_state (Main.main Samples.healthy initial) = Some Running.
Proof. reflexivity. Qed.

Example no_canvas_fails :
  final_state (Main.main Samples.no_canvas initial)
  = Some (Failed "not_found:canvas").
Proof. reflexivity. Qed.

Example two_healthy_frames_submit_twice :
  count isQueueSubmit
        (Main.run Samples.healthy [healthy_frame; healthy_frame]) = 2.
Proof. reflexivity. Qed.

(** Counting over the trace is counting over the calls. *)
Lemma count_calls (p : Event -> bool) (w : World) :
  count p w = List.length (filter p (calls w)).
Proof.
  unfold count, trace. rewrite filter_rev. apply length_rev.
Qed.

(** With no callback waiting, animation frames run nothing. *)
Lemma animationFrame_idle (w : World) (gpu : Frame) :
  rafQueue w = [] -> Main.animationFrame w gpu = w.
Proof.
  destruct w as [cs q]. cbn. intros ->. reflexivity.
Qed.

Lemma frames_idle (frames : list Frame) (w : World) :
  rafQueue w = [] -> fold_left Main.animationFrame frames w = w.
Proof.
  induction frames as [|gpu frames IH]; intros Hq; [reflexivity|].
  cbn [fold_left]. rewrite (animationFrame_idle w gpu Hq). now apply IH.
Qed.

Lemma run_cons (page : Page) (gpu : Frame) (later : list Frame) :
  Main.run page (gpu :: later)
  = fold_left Main.animationFrame later (Main.run page [gpu]).
Proof. reflexivity. Qed.

(** Case analysis on what the page answers at each step of [main]:
    six cases, one per failing step and one where all succeed. *)
Ltac page_cases page :=
  let doc := fresh "doc" in
  let nav := fresh "nav" in
  let stk := fresh "stk" in
  destruct page as [doc nav stk];
  cbv in *;
  destruct (doc "webgpu-canvas") as [[wd ht gc]|];
  [ destruct nav as [[[[[dev|reason]]|] fmt]|];
    [ destruct (gc "webgpu") as [ctx|] | | | ]
  | ].

(** [frame] catches whatever its body throws; it throws only what
    [String] throws in its [catch]. *)
Lemma frame_completion (self : FrameClosure) (gpu : Frame) (w : World) :
  fst (Main.frame self gpu w)
  = match first_throw gpu with
    | Some x => Observe.afterCatch x
    | None => Normal tt
    end.
Proof.
  destruct gpu as [a b c d e f g].
  destruct a as [x|]; [destruct x; reflexivity|].
  destruct b as [x|]; [destruct x; reflexivity|].
  destruct c as [x|]; [destruct x; reflexivity|].
  destruct d as [x|]; [destruct x; reflexivity|].
  destruct e as [x|]; [destruct x; reflexivity|].
  destruct f as [x|]; [destruct x; reflexivity|].
  destruct g as [x|]; [destruct x; reflexivity|reflexivity].
Qed.

(** A frame in which no call throws submits and asks for the next. *)
Lemma frame_healthy (self : FrameClosure) (gpu : Frame) (w : World) :
  first_throw gpu = None ->
  Main.frame self gpu w
  = (Normal tt,
     mkWorld
       (RequestAnimationFrame self
          :: QueueSubmit (device self) :: EncoderFinish :: PassEnd
          :: EncoderBeginRenderPass
               [("r", "0.1"); ("g", "0.2"); ("b", "0.35"); ("a", "1.0")]
               "clear" "store"
          :: DeviceCreateCommandEncoder (device self)
          :: TextureCreateView
          :: ContextGetCurrentTexture (gpuContext self)
          :: calls w)
       (rafQueue w ++ [self])).
Proof.
  destruct gpu as [a b c d e f g]. unfold first_throw. cbn.
  destruct a; [discriminate|]. destruct b; [discriminate|].
  destruct c; [discriminate|]. destruct d; [discriminate|].
  destruct e; [discriminate|]. destruct f; [discriminate|].
  destruct g; [discriminate|]. reflexivity.
Qed.

(** A frame in which a call throws [x]: nothing is asked of the
    frame scheduler, and [x] is reported to the logger, tagged
    [render_frame], unless [String(x)] throws. *)
Lemma frame_failing (self : FrameClosure) (gpu : Frame) (w : World)
      (x : Js.Value) :
  first_throw gpu = Some x ->
  let w' := snd (Main.frame self gpu w) in
  rafQueue w' = rafQueue w
  /\ (Js.stringThrows x = None ->
      hd_error (calls w')
      = Some (LoggerError (asError (ThrownValue x))
                          (Main.phase "render_frame")))
  /\ filter isRequestAnimationFrame (calls w')
     = filter isRequestAnimationFrame (calls w)
  /\ filter isLoggerError (calls w')
     = (Observe.report x (Main.phase "render_frame")
          ++ filter isLoggerError (calls w))%list.
Proof.
  destruct gpu as [a b c d e f g]. unfold first_throw. cbn.
  destruct a; [intros [= ->]; destruct x; repeat split; discriminate|].
  destruct b; [intros [= ->]; destruct x; repeat split; discriminate|].
  destruct c; [intros [= ->]; destruct x; repeat split; discriminate|].
  destruct d; [intros [= ->]; destruct x; repeat split; discriminate|].
  destruct e; [intros [= ->]; destruct x; repeat split; discriminate|].
  destruct f; [intros [= ->]; destruct x; repeat split; discriminate|].
  destruct g; [intros [= ->]; destruct x; repeat split; discriminate
              |discriminate].
Qed.

(** [main] completes normally exactly on the pages where no step
    fails. *)
Lemma main_normal_iff (page : Page) :
  fst (Main.main page initial) = Normal tt <-> first_failure page = None.
Proof.
  page_cases page; split; intros H; (reflexivity || discriminate H).
Qed.

(** C5.  Every failing initialization fails fast.  Whichever step is
    the first to fail, [main] throws the [AppError] of that step, with
    that step's code; the steps attempted are those up to the failing
    one, each once, and the failing step's call is the last call [main]
    made; the top-level [catch] reports the error tagged
    [main_initialization]; [requestAnimationFrame] was never called, no
    callback is waiting, and whatever animation frames follow, nothing
    more happens.  These are all the failing runs: [main] ends with a
    throw only where a step fails. *)
Theorem initialization_fails_fast (page : Page) :
  (forall st : Step,
      first_failure page = Some st ->
      exists e : Errors.AppError,
        fst (Main.main page initial) = Abrupt (ThrownAppError e)
        /\ Errors.code e = designated st
        /\ final_state (Main.main page initial)
           = Some (Failed (designated st))
        /\ attempted (snd (Main.main page initial)) = through st
        /\ option_map step_of_call
             (hd_error (calls (snd (Main.main page initial))))
           = Some (Some st)
        /\ Main.main_catch page initial
           = (Normal tt,
              mkWorld
                (LoggerError (ReportedAppError e)
                             (Some [("phase", Js.Str "main_initialization")])
                   :: calls (snd (Main.main page initial)))
                [])
        /\ count isRequestAnimationFrame (snd (Main.main_catch page initial))
           = 0
        /\ rafQueue (snd (Main.main_catch page initial)) = []
        /\ (forall frames : list Frame,
               Main.run page frames = snd (Main.main_catch page initial)))
  /\ (forall t : Thrown,
         fst (Main.main page initial) = Abrupt t ->
         exists st : Step, first_failure page = Some st).
Proof.
  split.
  - intros st H.
    assert (Hidle : forall frames,
               rafQueue (snd (Main.main_catch page initial)) = [] ->
               Main.run page frames = snd (Main.main_catch page initial)).
    { intros frames Hq. unfold Main.run. now apply frames_idle. }
    revert H Hidle. page_cases page; intros H Hidle; try discriminate H;
      injection H as <-; eexists; repeat split;
      intros frames; now apply Hidle.
  - intros t H. revert H.
    page_cases page; intros H; try discriminate H; eexists; reflexivity.
Qed.

Lemma initialization_fails_fast_witness :
  (exists e : Errors.AppError,
      fst (Main.main Samples.no_canvas initial) = Abrupt (ThrownAppError e)
      /\ Errors.code e = "not_found:canvas"
      /\ final_state (Main.main Samples.no_canvas initial)
         = Some (Failed "not_found:canvas")
      /\ attempted (snd (Main.main Samples.no_canvas initial))
         = [SurfaceLookup]
      /\ option_map step_of_call
           (hd_error (calls (snd (Main.main Samples.no_canvas initial))))
         = Some (Some SurfaceLookup)
      /\ Main.main_catch Samples.no_canvas initial
         = (Normal tt,
            mkWorld
              (LoggerError (ReportedAppError e)
                           (Some [("phase", Js.Str "main_initialization")])
                 :: calls (snd (Main.main Samples.no_canvas initial)))
              [])
      /\ count isRequestAnimationFrame
               (snd (Main.main_catch Samples.no_canvas initial)) = 0
      /\ rafQueue (snd (Main.main_catch Samples.no_canvas initial)) = []
      /\ (forall frames : list Frame,
             Main.run Samples.no_canvas frames
             = snd (Main.main_catch Samples.no_canvas initial)))
  /\ (exists st : Step,
         first_failure (Samples.device_rejects Js.Null) = Some st).
Proof.
  split.
  - apply (proj1 (initialization_fails_fast Samples.no_canvas) SurfaceLookup).
    reflexivity.
  - apply (proj2 (initialization_fails_fast (Samples.device_rejects Js.Null))
                 (ThrownAppError
                    (Errors.DeviceRequestFailedError (Some "Error at main")
                                                     Js.Null))).
    reflexivity.
Defined.

Lemma NoDup_firstn_all_steps (n : nat) : NoDup (firstn n all_steps).
Proof.
  do 5 (destruct n as [|n];
        [cbn; repeat constructor; cbn; intuition congruence|]).
  cbn. rewrite firstn_nil. repeat constructor; cbn; intuition congruence.
Qed.

Lemma attempted_prefix (page : Page) :
  exists n, attempted (snd (Main.main page initial)) = firstn n all_steps.
Proof.
  page_cases page;
    [now exists 5|now exists 5|now exists 4|now exists 3|now exists 2
    |now exists 1].
Qed.

(** C6.  The steps of [main] run in the order surface lookup,
    capability check, adapter request, device request, context
    configuration.  On every page the steps attempted are an initial
    segment of that list and the states reached an initial segment of
    Idle, TargetResolved, CapabilityChecked, AdapterAcquired,
    DeviceAcquired, ContextConfigured, Running, so no step comes
    twice and no state is left backwards.  The step that fails first
    ends the run in [Failed] with its code: not_found:canvas,
    unavailable:webgpu, not_found:adapter, failed:device,
    initialization_failed:context.  After a failure no frame changes
    the steps attempted or the states reached. *)
Theorem steps_in_strict_order (page : Page) :
  let r := Main.main page initial in
  (exists n, attempted (snd r) = firstn n all_steps)
  /\ NoDup (attempted (snd r))
  /\ (exists n, progress (snd r) = firstn (S n) chain)
  /\ match first_failure page with
     | Some st =>
         final_state r
         = Some (Failed match st with
                        | SurfaceLookup => "not_found:canvas"
                        | CapabilityCheck => "unavailable:webgpu"
                        | AdapterRequest => "not_found:adapter"
                        | DeviceRequest => "failed:device"
                        | ContextConfiguration =>
                            "initialization_failed:context"
                        end)
         /\ attempted (snd r) = through st
         /\ progress (snd r) = firstn (List.length (through st)) chain
         /\ forall frames : list Frame,
             attempted (Main.run page frames) = attempted (snd r)
             /\ progress (Main.run page frames) = progress (snd r)
     | None =>
         final_state r = Some Running
         /\ attempted (snd r) = all_steps
         /\ progress (snd r) = chain
     end.
Proof.
  assert (Hidle : forall frames,
             rafQueue (snd (Main.main_catch page initial)) = [] ->
             Main.run page frames = snd (Main.main_catch page initial)).
  { intros frames Hq. unfold Main.run. now apply frames_idle. }
  cbv zeta.
  split; [apply attempted_prefix|].
  split; [destruct (attempted_prefix page) as [n ->];
          apply NoDup_firstn_all_steps|].
  revert Hidle. page_cases page; intros Hidle.
  - split; [now exists 6|]. repeat split.
  - split; [now exists 4|]. repeat split;
      rewrite Hidle by reflexivity; reflexivity.
  - split; [now exists 3|]. repeat split;
      rewrite Hidle by reflexivity; reflexivity.
  - split; [now exists 2|]. repeat split;
      rewrite Hidle by reflexivity; reflexivity.
  - split; [now exists 1|]. repeat split;
      rewrite Hidle by reflexivity; reflexivity.
  - split; [now exists 0|]. repeat split;
      rewrite Hidle by reflexivity; reflexivity.
Qed.

(** C7.  When the device request rejects with [x], [main] throws an
    [AppError] with code failed:device whose cause is [x] and whose
    message is "Failed to request a GPU device."; it is not to be shown
    to the user and it is to be logged. *)
Theorem device_rejection_wrapped (page : Page) (cv : HTMLCanvasElement)
        (gpu : GPU) (ad : GPUAdapter) (x : Js.Value) :
  getElementById page "webgpu-canvas" = Some cv ->
  navigator_gpu page = Some gpu ->
  requestAdapter gpu = Some ad ->
  requestDevice ad = Rejected x ->
  exists e : Errors.AppError,
    fst (Main.main page initial) = Abrupt (ThrownAppError e)
    /\ final_state (Main.main page initial) = Some (Failed "failed:device")
    /\ Errors.code e = "failed:device"
    /\ Errors.cause e = x
    /\ Errors.message e = "Failed to request a GPU device."
    /\ Errors.call Errors.shouldShowToUser e = false
    /\ Errors.call Errors.shouldLog e = true.
Proof.
  intros Hcv Hgpu Had Hrej.
  exists (Errors.DeviceRequestFailedError (captureStack page) x).
  unfold final_state, Main.main.
  cbn. rewrite Hcv. cbn. rewrite Hgpu. cbn. rewrite Had. cbn.
  rewrite Hrej. cbn. repeat split.
Qed.

Lemma device_rejection_wrapped_witness :
  exists e : Errors.AppError,
    fst (Main.main (Samples.device_rejects (Js.Str "lost")) initial)
    = Abrupt (ThrownAppError e)
    /\ final_state (Main.main (Samples.device_rejects (Js.Str "lost")) initial)
       = Some (Failed "failed:device")
    /\ Errors.code e = "failed:device"
    /\ Errors.cause e = Js.Str "lost"
    /\ Errors.message e = "Failed to request a GPU device."
    /\ Errors.call Errors.shouldShowToUser e = false
    /\ Errors.call Errors.shouldLog e = true.
Proof.
  apply (device_rejection_wrapped
           (Samples.device_rejects (Js.Str "lost"))
           (Samples.canvas (Some 1%positive))
           (mkGPU (Some (mkGPUAdapter (Rejected (Js.Str "lost")))) "bgra8unorm")
           (mkGPUAdapter (Rejected (Js.Str "lost")))
           (Js.Str "lost"));
    reflexivity.
Defined.

(** C8.  When all five steps succeed, [main] returns normally in state
    Running, and by then it has called [requestAnimationFrame] exactly
    once, with [frame] closed over the context and the device it
    acquired: that call is the last but one of [main] ([calls] lists
    the newest first), before its final debug line, and the one
    callback waiting is that closure. *)
Theorem success_schedules_once (page : Page) :
  first_failure page = None ->
  exists (self : FrameClosure) (before : list Event),
    fst (Main.main page initial) = Normal tt
    /\ final_state (Main.main page initial) = Some Running
    /\ calls (snd (Main.main page initial))
       = LoggerDebug "Initialization complete, render loop started" None
           :: RequestAnimationFrame self :: before
    /\ filter isRequestAnimationFrame before = []
    /\ count isRequestAnimationFrame (snd (Main.main page initial)) = 1
    /\ rafQueue (snd (Main.main page initial)) = [self]
    /\ Main.main_catch page initial = Main.main page initial.
Proof.
  intros H. revert H. unfold count.
  page_cases page; intros H; try discriminate H.
  exists (mkFrameClosure ctx dev). eexists.
  split; [reflexivity|]. split; [reflexivity|]. split; [reflexivity|].
  repeat split.
Qed.

Lemma success_schedules_once_witness :
  exists (self : FrameClosure) (before : list Event),
    fst (Main.main Samples.healthy initial) = Normal tt
    /\ final_state (Main.main Samples.healthy initial) = Some Running
    /\ calls (snd (Main.main Samples.healthy initial))
       = LoggerDebug "Initialization complete, render loop started" None
           :: RequestAnimationFrame self :: before
    /\ filter isRequestAnimationFrame before = []
    /\ count isRequestAnimationFrame (snd (Main.main Samples.healthy initial))
       = 1
    /\ rafQueue (snd (Main.main Samples.healthy initial)) = [self]
    /\ Main.main_catch Samples.healthy initial
       = Main.main Samples.healthy initial.
Proof.
  apply (success_schedules_once Samples.healthy). reflexivity.
Defined.

(** What a successful initialization leaves behind. *)
Lemma main_success_world (page : Page) :
  first_failure page = None ->
  exists (self : FrameClosure) (before : list Event),
    snd (Main.main_catch page initial)
    = mkWorld
        (LoggerDebug "Initialization complete, render loop started" None
           :: RequestAnimationFrame self :: before)
        [self]
    /\ filter isRequestAnimationFrame before = []
    /\ filter isLoggerError before = []
    /\ filter isQueueSubmit before = [].
Proof.
  intros H. revert H. page_cases page; intros H; try discriminate H.
  exists (mkFrameClosure ctx dev). eexists.
  split; [reflexivity|]. repeat split.
Qed.

(** A frame whose image acquisition throws makes that one call,
    reports what was thrown when it can, and ends. *)
Lemma frame_acquisition_fails (self : FrameClosure) (gpu : Frame) (w : World)
      (x : Js.Value) :
  getCurrentTexture_throws gpu = Some x ->
  Main.frame self gpu w
  = (Observe.afterCatch x,
     mkWorld
       (Observe.report x (Main.phase "render_frame")
          ++ ContextGetCurrentTexture (gpuContext self) :: calls w)%list
       (rafQueue w)).
Proof.
  destruct gpu as [a b c d e f g]. cbn. intros ->. destruct x; reflexivity.
Qed.

(** C1, as the code has it.  After a successful initialization, a
    frame in which one of the GPU calls throws is caught and logged
    tagged [render_frame] (once, the report being the last call made;
    not at all in the one case where [String] cannot convert what was
    thrown); but [requestAnimationFrame] sits inside the [try] block
    after the submission, so it is skipped: no callback is waiting
    afterwards, the only request ever made is the one of [main], and
    whatever frames the host offers later, none runs.  When it was the
    image acquisition that threw, no command buffer is ever
    submitted. *)
Theorem frame_failure_stops_loop (page : Page) (f1 : Frame)
        (later : list Frame) (x : Js.Value) :
  first_failure page = None ->
  first_throw f1 = Some x ->
  let w := Main.run page (f1 :: later) in
  w = Main.run page [f1]
  /\ rafQueue w = []
  /\ count isRequestAnimationFrame w = 1
  /\ match Js.stringThrows x with
     | None =>
         count isLoggerError w = 1
         /\ hd_error (calls w)
            = Some (LoggerError (asError (ThrownValue x))
                                (Some [("phase", Js.Str "render_frame")]))
     | Some _ => count isLoggerError w = 0
     end
  /\ (getCurrentTexture_throws f1 = Some x -> count isQueueSubmit w = 0).
Proof.
  intros Hpage Hthrow.
  destruct (main_success_world page Hpage)
    as (self & before & Hw & Hraf & Herr & Hsub).
  assert (H1 : Main.run page [f1]
               = snd (Main.frame self f1
                        (mkWorld
                           (LoggerDebug
                              "Initialization complete, render loop started"
                              None
                              :: RequestAnimationFrame self :: before)
                           []))).
  { unfold Main.run. rewrite Hw. reflexivity. }
  pose proof (frame_failing self f1
                (mkWorld
                   (LoggerDebug
                      "Initialization complete, render loop started" None
                      :: RequestAnimationFrame self :: before)
                   [])
                x Hthrow) as (Hq & Hhd & Hr & He).
  cbv zeta. rewrite run_cons, H1.
  rewrite (frames_idle later _ Hq).
  split; [reflexivity|]. split; [exact Hq|].
  rewrite !count_calls, Hr, He. unfold Observe.report in *.
  cbn [calls filter isRequestAnimationFrame isLoggerError].
  rewrite Hraf, Herr.
  split; [reflexivity|]. split.
  - destruct (Js.stringThrows x); [reflexivity|].
    split; [reflexivity|now apply Hhd].
  - intros Hacq. rewrite (frame_acquisition_fails self f1 _ x Hacq).
    unfold Observe.report. cbn [snd calls].
    destruct (Js.stringThrows x); cbn; now rewrite Hsub.
Qed.

Lemma frame_failure_stops_loop_witness :
  let w := Main.run Samples.healthy [Samples.lost_surface; healthy_frame] in
  w = Main.run Samples.healthy [Samples.lost_surface]
  /\ rafQueue w = []
  /\ count isRequestAnimationFrame w = 1
  /\ (count isLoggerError w = 1
      /\ hd_error (calls w)
         = Some (LoggerError
                   (asError
                      (ThrownValue
                         (Js.ErrorObject "InvalidStateError" "surface lost")))
                   (Some [("phase", Js.Str "render_frame")])))
  /\ (getCurrentTexture_throws Samples.lost_surface
      = Some (Js.ErrorObject "InvalidStateError" "surface lost") ->
      count isQueueSubmit w = 0).
Proof.
  apply (frame_failure_stops_loop Samples.healthy Samples.lost_surface
           [healthy_frame]
           (Js.ErrorObject "InvalidStateError" "surface lost"));
    reflexivity.
Defined.

(** Scenario E on the code: frame 1 loses the surface, frame 2 would be
    healthy.  One error is logged; frame 2 never runs, so nothing is
    submitted, where two healthy frames submit twice. *)
Example scenario_E :
  count isLoggerError
        (Main.run Samples.healthy [Samples.lost_surface; healthy_frame]) = 1
  /\ count isQueueSubmit
           (Main.run Samples.healthy [Samples.lost_surface; healthy_frame]) = 0
  /\ rafQueue (Main.run Samples.healthy [Samples.lost_surface; healthy_frame])
     = [].
Proof. repeat split. Qed.

End PipelineAndLoop.


(** The six cases of a page, as in the section above. *)
Ltac by_page page :=
  let doc := fresh "doc" in
  let nav := fresh "nav" in
  let stk := fresh "stk" in
  destruct page as [doc nav stk];
  cbv in *;
  destruct (doc "webgpu-canvas") as [[wd ht gc]|];
  [ destruct nav as [[[[[dev|reason]]|] fmt]|];
    [ destruct (gc "webgpu") as [ctx|] | | | ]
  | ].

(* ================================================================== *)
(** * Further properties of src/errors.ts *)

Section ErrorsFurther.
Import Errors.

Lemma split_piece (sep : ascii) (a r : string) :
  Observe.contains sep a = false ->
  Js.split sep (a ++ String sep r) = a :: Js.split sep r.
Proof.
  induction a as [|c a IH]; cbn; intros H.
  - now rewrite Ascii.eqb_refl.
  - apply orb_false_iff in H as [Hc Ha]. rewrite Hc, (IH Ha). reflexivity.
Qed.

Lemma split_whole (sep : ascii) (a : string) :
  Observe.contains sep a = false -> Js.split sep a = [a].
Proof.
  induction a as [|c a IH]; cbn; intros H; [reflexivity|].
  apply orb_false_iff in H as [Hc Ha]. rewrite Hc, (IH Ha). reflexivity.
Qed.

(** X1.  The constructor takes the type from before the first colon and the
    surface from between the first and the second; whatever follows a
    second colon is dropped, and a code without a colon leaves the
    surface undefined. *)
Theorem constructor_splits_code (n : string) (st : option string)
        (a b rest : string) (x : Js.Value) :
  Observe.contains ":" a = false ->
  Observe.contains ":" b = false ->
  (type (new_AppError n st (a ++ ":" ++ b) x) = Some a
   /\ surface (new_AppError n st (a ++ ":" ++ b) x) = Some b)
  /\ (type (new_AppError n st (a ++ ":" ++ b ++ ":" ++ rest) x) = Some a
      /\ surface (new_AppError n st (a ++ ":" ++ b ++ ":" ++ rest) x)
         = Some b
      /\ code (new_AppError n st (a ++ ":" ++ b ++ ":" ++ rest) x)
         = a ++ ":" ++ b ++ ":" ++ rest)
  /\ (type (new_AppError n st a x) = Some a
      /\ surface (new_AppError n st a x) = None).
Proof.
  intros Ha Hb. rewrite !new_AppError_fields. cbn [type surface code].
  change (a ++ ":" ++ b) with (a ++ String ":" b).
  change (a ++ ":" ++ b ++ ":" ++ rest)
    with (a ++ String ":" (b ++ String ":" rest)).
  rewrite !(split_piece ":" a _ Ha), (split_piece ":" b rest Hb),
    (split_whole ":" b Hb), (split_whole ":" a Ha).
  repeat split.
Qed.

Lemma constructor_splits_code_witness :
  (type (new_AppError "AppError" None ("failed" ++ ":" ++ "device") Js.Null)
   = Some "failed"
   /\ surface
        (new_AppError "AppError" None ("failed" ++ ":" ++ "device") Js.Null)
      = Some "device")
  /\ (type (new_AppError "AppError" None
              ("failed" ++ ":" ++ "device" ++ ":" ++ "lost:again") Js.Null)
      = Some "failed"
      /\ surface (new_AppError "AppError" None
                    ("failed" ++ ":" ++ "device" ++ ":" ++ "lost:again")
                    Js.Null)
         = Some "device"
      /\ code (new_AppError "AppError" None
                 ("failed" ++ ":" ++ "device" ++ ":" ++ "lost:again") Js.Null)
         = "failed" ++ ":" ++ "device" ++ ":" ++ "lost:again")
  /\ (type (new_AppError "AppError" None "failed" Js.Null) = Some "failed"
      /\ surface (new_AppError "AppError" None "failed" Js.Null) = None).
Proof.
  apply (constructor_splits_code "AppError" None "failed" "device"
                                 "lost:again" Js.Null);
    reflexivity.
Defined.

Lemma ownVisibility_unknown (key : string) :
  (forall s : Surface, key <> Surface_str s) ->
  ownVisibility visibilityBySurface key = None.
Proof.
  intros H. unfold visibilityBySurface. cbn [ownVisibility].
  repeat match goal with
         | |- context [String.eqb ?c key] =>
             destruct (String.eqb_spec c key) as [E|_];
             [exfalso; subst key|]
         end.
  - exact (H webgpu eq_refl).
  - exact (H adapter eq_refl).
  - exact (H device eq_refl).
  - exact (H context eq_refl).
  - exact (H canvas eq_refl).
  - exact (H pipeline eq_refl).
  - reflexivity.
Qed.

(** The lookup outside the six keys: the inherited property of that
    name, if there is one. *)
Lemma lookupVisibility_unknown (k : option string) :
  (forall s : Surface, k <> Some (Surface_str s)) ->
  lookupVisibility visibilityBySurface k
  = match k with
    | Some key =>
        match Js.getOwn key Js.objectPrototype with
        | Some v => Inherited v
        | None => NotFound
        end
    | None => NotFound
    end.
Proof.
  intros H. destruct k as [key|]; [|reflexivity].
  unfold lookupVisibility. rewrite ownVisibility_unknown; [reflexivity|].
  intros s E. apply (H s). now rewrite E.
Qed.

(** X2.  An error whose surface is not one of the six keys of
    [visibilityBySurface] (or is undefined) is neither to be shown nor
    to be logged.  Its visibility is undefined, and it serializes so,
    unless the surface names a property that the table inherits from
    [Object.prototype] ([constructor], [toString], [__proto__], ...):
    then [getVisibility] answers that inherited value and [toJSON]
    carries it. *)
Theorem unknown_surface_is_hidden (e : AppError) :
  (forall s : Surface, surface e <> Some (Surface_str s)) ->
  call shouldShowToUser e = false
  /\ call shouldLog e = false
  /\ match surface e with
     | Some key =>
         match Js.getOwn key Js.objectPrototype with
         | Some v =>
             call getVisibility e = Inherited v
             /\ Js.getField "visibility" (call toJSON e) = v
         | None =>
             call getVisibility e = NotFound
             /\ Js.getField "visibility" (call toJSON e) = Js.Undefined
         end
     | None =>
         call getVisibility e = NotFound
         /\ Js.getField "visibility" (call toJSON e) = Js.Undefined
     end.
Proof.
  intros H. pose proof (lookupVisibility_unknown (surface e) H) as Hv.
  destruct e as [n m st ty su co ca]. cbn [surface] in Hv |- *.
  unfold call, shouldShowToUser, shouldLog, toJSON, getVisibility,
    bind, read, ret.
  cbn [fst snd name message stack type surface code cause].
  rewrite Hv.
  destruct su as [key|];
    [destruct (Js.getOwn key Js.objectPrototype)|];
    repeat split;
    destruct (Js.truthy ca), (Js.truthy (Js.ofOptString st)); reflexivity.
Qed.

Lemma unknown_surface_is_hidden_witness :
  (let e := new_AppError "AppError" None "failed" Js.Null in
   call shouldShowToUser e = false
   /\ call shouldLog e = false
   /\ call getVisibility e = NotFound
   /\ Js.getField "visibility" (call toJSON e) = Js.Undefined)
  /\ (let e := new_AppError "AppError" None "failed:constructor" Js.Null in
      call shouldShowToUser e = false
      /\ call shouldLog e = false
      /\ call getVisibility e = Inherited (Js.Object 1)
      /\ Js.getField "visibility" (call toJSON e) = Js.Object 1).
Proof.
  split.
  - apply (unknown_surface_is_hidden
             (new_AppError "AppError" None "failed" Js.Null)).
    intros s. destruct s; discriminate.
  - apply (unknown_surface_is_hidden
             (new_AppError "AppError" None "failed:constructor" Js.Null)).
    intros s. destruct s; discriminate.
Defined.

Lemma ownVisibility_not_both (key : string) :
  ownVisibility visibilityBySurface key <> Some both.
Proof.
  unfold visibilityBySurface. cbn [ownVisibility].
  repeat match goal with
         | |- context [String.eqb ?c key] =>
             destruct (String.eqb c key); [discriminate|]
         end.
  discriminate.
Qed.

Lemma lookupVisibility_not_both (k : option string) :
  lookupVisibility visibilityBySurface k <> Found both.
Proof.
  unfold lookupVisibility.
  match goal with
  | |- context [ownVisibility _ ?key] =>
      pose proof (ownVisibility_not_both key) as H;
      destruct (ownVisibility visibilityBySurface key) as [[| |]|];
      try discriminate; [now contradiction H|];
      destruct (Js.getOwn key Js.objectPrototype); discriminate
  end.
Qed.

(** X3.  No error is both shown and logged: the table never answers [both].
    An error with a well-typed code is exactly one of the two. *)
Theorem shown_or_logged_never_both :
  (forall e : AppError,
      call shouldShowToUser e && call shouldLog e = false)
  /\ (forall (n : string) (st : option string) (t : ErrorType) (s : Surface)
             (x : Js.Value),
         xorb (call shouldShowToUser (new_AppError n st (mkErrorCode t s) x))
              (call shouldLog (new_AppError n st (mkErrorCode t s) x))
         = true).
Proof.
  split.
  - intros e. pose proof (lookupVisibility_not_both (surface e)) as H.
    unfold call, shouldShowToUser, shouldLog, getVisibility, bind, read, ret.
    cbn [fst].
    destruct (lookupVisibility visibilityBySurface (surface e))
      as [[| |]| |]; try reflexivity.
    now contradiction H.
  - intros n st t s x.
    pose proof (getVisibility_new n st t s x) as H.
    unfold call, shouldShowToUser, shouldLog, bind, ret in *.
    destruct (getVisibility (new_AppError n st (mkErrorCode t s) x))
      as [v e'].
    cbn [fst] in *. subst v. destruct s; reflexivity.
Qed.

(** X4.  The message tells the code: the fallback is returned for the
    undefined codes only, and two codes with the same message are the
    same code as soon as one of them is defined. *)
Theorem message_identifies_code :
  (forall c : ErrorCode,
      getMessageByErrorCode c = Taxonomy.fallbackMessage
      <-> ~ In c Taxonomy.definedCodes)
  /\ (forall c1 c2 : ErrorCode,
         In c1 Taxonomy.definedCodes ->
         getMessageByErrorCode c1 = getMessageByErrorCode c2 ->
         c1 = c2).
Proof.
  assert (Hdef : forall c, In c Taxonomy.definedCodes ->
                           getMessageByErrorCode c
                           <> Taxonomy.fallbackMessage).
  { intros c H. cbn in H.
    repeat (destruct H as [H|H]; [subst c; discriminate|]).
    contradiction. }
  split.
  - intros c. split.
    + intros H Hin. exact (Hdef c Hin H).
    + apply getMessageByErrorCode_undefined.
  - intros c1 c2 H1 Heq.
    destruct (in_dec string_dec c2 Taxonomy.definedCodes) as [H2|H2].
    + cbn in H1, H2.
      repeat (destruct H1 as [H1|H1]; [subst c1|]); try contradiction;
        repeat (destruct H2 as [H2|H2]; [subst c2|]); try contradiction;
        first [reflexivity | discriminate Heq].
    + rewrite (getMessageByErrorCode_undefined c2 H2) in Heq.
      now apply Hdef in H1.
Qed.

Lemma message_identifies_code_witness :
  getMessageByErrorCode "failed:canvas" = Taxonomy.fallbackMessage
  /\ "failed:device" = "failed:device".
Proof.
  destruct message_identifies_code as [Hfallback Hinj]. split.
  - apply Hfallback. cbn. intros H.
    repeat (destruct H as [H|H]; [discriminate H|]). exact H.
  - apply Hinj; [cbn; tauto|reflexivity].
Defined.

(** X5.  The six subclasses and the six messages of the [switch] match one
    to one: taken in the order of the file, the subclasses carry
    exactly the codes and messages of the table, none the fallback;
    each takes its own class name, and passes its cause and the stack
    through. *)
Theorem subclasses_match_messages (st : option string) (x : Js.Value) :
  map (fun c => (code (snd c st x), message (snd c st x))) Observe.subclasses
  = Taxonomy.messageTable
  /\ Forall (fun c => name (snd c st x) = fst c
                      /\ cause (snd c st x) = x
                      /\ stack (snd c st x) = st
                      /\ message (snd c st x) <> Taxonomy.fallbackMessage)
            Observe.subclasses
  /\ NoDup (map fst Observe.subclasses).
Proof.
  split; [reflexivity|]. split.
  - repeat constructor; discriminate.
  - repeat constructor; cbn; intuition discriminate.
Qed.

End ErrorsFurther.

(* ================================================================== *)
(** * Properties of src/logger.ts *)

Section LoggerConsole.
Import Host.

Example console_of_device_failure :
  Console.error true "2025-01-01T00:00:00.000Z"
    (Console.OfAppError
       (Errors.DeviceRequestFailedError None (Js.Str "lost")))
    (Main.phase "main_initialization")
  = [ Console.Group [Console.str "%c[ERROR] DeviceRequestFailedError";
                     Console.str "color: red; font-weight: bold;"];
      Console.Error [Console.str "Message:";
                     Console.str "Failed to request a GPU device."];
      Console.Error [Console.str "Code:"; Console.str "failed:device"];
      Console.Error [Console.str "Cause:"; Console.Val (Js.Str "lost")];
      Console.Error
        [Console.str "Additional Context:";
         Console.Rec [("phase", Console.Val (Js.Str "main_initialization"))]];
      Console.Error
        [Console.str "Full Error Object:";
         Console.Rec
           [ ("timestamp", Console.str "2025-01-01T00:00:00.000Z");
             ("name", Console.str "DeviceRequestFailedError");
             ("message", Console.str "Failed to request a GPU device.");
             ("stack", Console.Val Js.Undefined);
             ("code", Console.str "failed:device");
             ("cause", Console.Val (Js.Str "lost"));
             ("additionalContext",
              Console.Rec
                [("phase", Console.Val (Js.Str "main_initialization"))]) ]];
      Console.GroupEnd ].
Proof. reflexivity. Qed.

Lemma sink_production (engine : Console.Engine) (n : nat) (e : Event) :
  Console.sink false engine n e = [].
Proof. destruct e; reflexivity. Qed.

Lemma replayFrom_production (engine : Console.Engine) (events : list Event) :
  forall n, Console.replayFrom false engine n events = [].
Proof.
  induction events as [|e events IH]; intros n; cbn; [reflexivity|].
  now rewrite sink_production, IH.
Qed.

(** X6.  Outside development nothing reaches the console: each of the four
    entry points returns at once, so whatever the page and the frames,
    a whole run of the program prints nothing. *)
Theorem production_console_is_silent (engine : Console.Engine) :
  (forall ts err ctx, Console.error false ts err ctx = [])
  /\ (forall m ctx, Console.warn false m ctx = []
                    /\ Console.info false m ctx = []
                    /\ Console.debug false m ctx = [])
  /\ (forall (page : Page) (frames : list Frame),
         Console.output false engine (Main.run page frames) = []).
Proof.
  split; [reflexivity|]. split; [repeat split|].
  intros page frames. apply replayFrom_production.
Qed.

(** X7.  In development [error] writes one group: it opens with
    [console.group], closes with [console.groupEnd], and in between
    there are only [console.error] lines.  The lines Message and Full
    Error Object are always there; Code is there for an [AppError]
    only, Cause for an [AppError] with a truthy cause only, Stack when
    the stack is truthy, Additional Context when a context was
    passed. *)
Theorem error_writes_one_group (ts : string) (err : Console.ErrorArg)
        (ctx : option Js.Obj) :
  let out := Console.error true ts err ctx in
  hd_error out
  = Some (Console.Group
            [Console.str ("%c[ERROR] " ++ Console.name_of err);
             Console.str "color: red; font-weight: bold;"])
  /\ last out (Console.Group []) = Console.GroupEnd
  /\ List.length (filter Console.isGroup out) = 1
  /\ List.length (filter Console.isGroupEnd out) = 1
  /\ forallb Console.isError (removelast (tl out)) = true
  /\ Console.hasLabel "Message:" out = true
  /\ Console.hasLabel "Full Error Object:" out = true
  /\ Console.hasLabel "Code:" out
     = match err with Console.OfAppError _ => true | _ => false end
  /\ Console.hasLabel "Cause:" out
     = match err with
       | Console.OfAppError e => Js.truthy (Errors.cause e)
       | _ => false
       end
  /\ Console.hasLabel "Stack:" out
     = Js.truthy (Js.ofOptString (Console.stack_of err))
  /\ Console.hasLabel "Additional Context:" out
     = match ctx with Some _ => true | None => false end.
Proof.
  unfold Console.error. cbn [negb].
  destruct err as [n m st|[n m st ty su co ca]];
    cbn [Console.name_of Console.message_of Console.stack_of
         Errors.cause Errors.code Errors.name Errors.message Errors.stack];
    try destruct (Js.truthy ca);
    destruct (Js.truthy (Js.ofOptString st));
    destruct ctx; cbv zeta; repeat split.
Qed.

(** X8.  The record written under Full Error Object.  The context goes
    under [additionalContext], so none of its keys replaces a field of
    the error: timestamp, name, message and, for an [AppError], code
    are the error's own whatever the context holds.  [stack] is always
    a key, also when the stack is undefined; [cause] is a key for an
    [AppError] with a truthy cause only. *)
Theorem errorInfo_keeps_error_fields (ts : string) (err : Console.ErrorArg)
        (ctx : option Js.Obj) :
  let info := Console.errorInfo ts err ctx in
  Console.getProp "timestamp" info = Some (Console.str ts)
  /\ Console.getProp "name" info = Some (Console.str (Console.name_of err))
  /\ Console.getProp "message" info
     = Some (Console.str (Console.message_of err))
  /\ Console.getProp "stack" info
     = Some (Console.Val (Js.ofOptString (Console.stack_of err)))
  /\ Console.getProp "code" info
     = match err with
       | Console.OfAppError e => Some (Console.str (Errors.code e))
       | _ => None
       end
  /\ Console.getProp "cause" info
     = match err with
       | Console.OfAppError e =>
           if Js.truthy (Errors.cause e)
           then Some (Console.Val (Errors.cause e)) else None
       | _ => None
       end
  /\ Console.getProp "additionalContext" info = option_map Console.ofObj ctx.
Proof.
  unfold Console.errorInfo.
  destruct err as [n m st|[n m st ty su co ca]];
    cbn [Console.name_of Console.message_of Console.stack_of
         Errors.cause Errors.code Errors.name Errors.message Errors.stack];
    try destruct (Js.truthy ca); destruct ctx; cbv zeta; repeat split.
Qed.

(** X9.  The logger and [toJSON] put an [AppError] through the same tests:
    the logger prints a Cause line exactly when [toJSON] has a cause
    field, a Stack line exactly when [toJSON] has a stack field, and
    its Code line carries the code [toJSON] gives. *)
Theorem logger_agrees_with_toJSON (ts : string) (e : Errors.AppError)
        (ctx : option Js.Obj) :
  let out := Console.error true ts (Console.OfAppError e) ctx in
  Console.hasLabel "Cause:" out = Js.hasField "cause" (Errors.call Errors.toJSON e)
  /\ Console.hasLabel "Stack:" out
     = Js.hasField "stack" (Errors.call Errors.toJSON e)
  /\ In (Console.Error
           [Console.str "Code:";
            Console.Val (Js.getField "code" (Errors.call Errors.toJSON e))])
        out
  /\ In (Console.Error
           [Console.str "Message:";
            Console.Val
              (Js.getField "message" (Errors.call Errors.toJSON e))])
        out.
Proof.
  cbv zeta. rewrite toJSON_hasField_cause, toJSON_hasField_stack.
  destruct e as [n m st ty su co ca].
  unfold Console.error, Errors.call, Errors.toJSON, Errors.getVisibility,
    Errors.bind, Errors.read, Errors.ret.
  cbn [negb fst snd Console.name_of Console.message_of Console.stack_of
       Errors.cause Errors.code Errors.name Errors.message Errors.stack
       Errors.type Errors.surface].
  destruct (Js.truthy ca); destruct (Js.truthy (Js.ofOptString st));
    destruct ctx; repeat split; cbn; tauto.
Qed.

Lemma replayFrom_app (dev : bool) (engine : Console.Engine)
      (l1 l2 : list Event) :
  forall n,
    Console.replayFrom dev engine n (l1 ++ l2)%list
    = (Console.replayFrom dev engine n l1
         ++ Console.replayFrom dev engine (n + List.length l1) l2)%list.
Proof.
  induction l1 as [|e l1 IH]; intros n; cbn [Console.replayFrom app].
  - cbn. now rewrite Nat.add_0_r.
  - rewrite IH, <- app_assoc. cbn [List.length].
    now rewrite Nat.add_succ_r.
Qed.

(** Replaying calls among which there is no [logger.error] gives one
    [console.debug] for each [logger.debug], and nothing else. *)
Lemma replay_debug_only (engine : Console.Engine) (events : list Event) :
  filter Pipeline.isLoggerError events = [] ->
  forall n,
    Forall (fun c => Console.isDebug c = true)
           (Console.replayFrom true engine n events)
    /\ List.length (Console.replayFrom true engine n events)
       = List.length (filter Observe.isLoggerDebug events).
Proof.
  induction events as [|e events IH]; intros H n; cbn; [now split|].
  destruct e; cbn in H; try discriminate H;
    destruct (IH H (S n)) as [IH1 IH2]; cbn; auto.
Qed.

Lemma Forall_debug_filters (cs : list Console.Call) :
  Forall (fun c => Console.isDebug c = true) cs ->
  filter Console.isDebug cs = cs /\ filter Console.isGroup cs = [].
Proof.
  induction 1 as [|c cs Hc _ [IH1 IH2]]; [now split|].
  destruct c; try discriminate Hc. cbn. now rewrite IH1, IH2.
Qed.

(** The group that [error] writes for an [AppError] with a context. *)
Lemma error_group_of_AppError (ts : string) (e : Errors.AppError)
      (ctx : Js.Obj) :
  exists body,
    Console.error true ts (Console.OfAppError e) (Some ctx)
    = (Console.Group [Console.str ("%c[ERROR] " ++ Errors.name e);
                      Console.str "color: red; font-weight: bold;"]
         :: body ++ [Console.GroupEnd])%list
    /\ Forall (fun c => Console.isError c = true) body
    /\ In (Console.Error [Console.str "Code:"; Console.str (Errors.code e)])
          body
    /\ In (Console.Error [Console.str "Additional Context:"; Console.ofObj ctx])
          body.
Proof.
  exists (removelast
            (tl (Console.error true ts (Console.OfAppError e) (Some ctx)))).
  destruct e as [n m st ty su co ca]. unfold Console.error.
  cbn [negb Console.name_of Console.message_of Console.stack_of
       Errors.cause Errors.code Errors.name Errors.message Errors.stack].
  destruct (Js.truthy ca); destruct (Js.truthy (Js.ofOptString st));
    cbn; (split; [reflexivity|]); (split; [repeat constructor|]);
    tauto.
Qed.

Lemma Forall_error_filters (cs : list Console.Call) :
  Forall (fun c => Console.isError c = true) cs ->
  filter Console.isDebug cs = [] /\ filter Console.isGroup cs = [].
Proof.
  induction 1 as [|c cs Hc _ [IH1 IH2]]; [now split|].
  destruct c; try discriminate Hc. cbn. now rewrite IH1, IH2.
Qed.

(** What [main] leaves in the trace: no [logger.error], and a known
    number of debug lines; the [catch] adds the one [logger.error]. *)
Lemma main_trace_logging (page : Page) :
  filter Pipeline.isLoggerError (calls (snd (Main.main page initial))) = []
  /\ match Pipeline.first_failure page with
     | None =>
         snd (Main.main_catch page initial) = snd (Main.main page initial)
         /\ List.length
              (filter Observe.isLoggerDebug
                      (calls (snd (Main.main page initial)))) = 12
     | Some st =>
         (exists e,
             Errors.code e = Pipeline.designated st
             /\ calls (snd (Main.main_catch page initial))
                = LoggerError (ReportedAppError e)
                              (Some [("phase", Js.Str "main_initialization")])
                    :: calls (snd (Main.main page initial)))
         /\ List.length
              (filter Observe.isLoggerDebug
                      (calls (snd (Main.main page initial))))
            = Observe.debugLines st
     end.
Proof.
  by_page page; (split; [reflexivity|]); split;
    first [reflexivity | eexists; split; [|reflexivity]; reflexivity].
Qed.

(** X10.  In development, the console of the initialization.  When all steps
    succeed it holds twelve debug lines and nothing else.  When a step
    fails it holds the debug lines logged up to there, then one error
    group, closed by [console.groupEnd], that carries the code of the
    failing step and the context phase main_initialization. *)
Theorem development_console_of_initialization
        (engine : Console.Engine) (page : Page) :
  let out :=
    Console.output true engine (snd (Main.main_catch page initial)) in
  match Pipeline.first_failure page with
  | None =>
      forallb Console.isDebug out = true /\ List.length out = 12
  | Some st =>
      List.length (filter Console.isDebug out) = Observe.debugLines st
      /\ List.length (filter Console.isGroup out) = 1
      /\ last out (Console.Group []) = Console.GroupEnd
      /\ In (Console.Error [Console.str "Code:";
                            Console.str (Pipeline.designated st)]) out
      /\ In (Console.Error
               [Console.str "Additional Context:";
                Console.Rec
                  [("phase", Console.Val (Js.Str "main_initialization"))]])
            out
  end.
Proof.
  cbv zeta. unfold Console.output, trace.
  destruct (main_trace_logging page) as [Hnoerr Hcases].
  assert (Hrev : filter Pipeline.isLoggerError
                        (rev (calls (snd (Main.main page initial)))) = []).
  { now rewrite filter_rev, Hnoerr. }
  destruct (Pipeline.first_failure page) as [st|].
  - destruct Hcases as [(e & Hcode & Hcalls) Hdebug].
    rewrite Hcalls. cbn [rev]. rewrite replayFrom_app.
    cbn [Console.replayFrom Console.sink Console.errorArg].
    rewrite app_nil_r.
    destruct (replay_debug_only engine _ Hrev 0) as [Hall Hlen].
    destruct (Forall_debug_filters _ Hall) as [Hfd Hfg].
    destruct (error_group_of_AppError
                (Console.now engine
                   (0 + List.length
                          (rev (calls (snd (Main.main page initial))))))
                e [("phase", Js.Str "main_initialization")])
      as (body & Hgroup & Hbody & Hcodeline & Hctxline).
    set (G := Console.error _ _ _ _) in *.
    assert (HG : G = (Console.Group
                        [Console.str ("%c[ERROR] " ++ Errors.name e);
                         Console.str "color: red; font-weight: bold;"]
                        :: body ++ [Console.GroupEnd])%list)
      by exact Hgroup.
    clearbody G. subst G.
    destruct (Forall_error_filters _ Hbody) as [Hbd Hbg].
    rewrite <- Hcode.
    rewrite !filter_app. cbn [filter Console.isDebug Console.isGroup].
    rewrite !filter_app, Hfd, Hfg, Hbd, Hbg. cbn [filter Console.isDebug
      Console.isGroup app].
    rewrite app_nil_r, Hlen, filter_rev, length_rev, Hdebug.
    split; [reflexivity|]. split; [reflexivity|].
    split.
    + rewrite app_comm_cons, app_assoc. apply last_last.
    + split; apply in_or_app; right; right; apply in_or_app; left;
        assumption.
  - destruct Hcases as [Hsame Hdebug]. rewrite Hsame.
    destruct (replay_debug_only engine _ Hrev 0) as [Hall Hlen].
    split.
    + apply forallb_forall. intros c Hc.
      exact (proj1 (Forall_forall _ _) Hall c Hc).
    + now rewrite Hlen, filter_rev, length_rev.
Qed.

End LoggerConsole.


(* ================================================================== *)
(** * Further properties of src/main.ts *)

Section MainFurther.
Import Host Pipeline.

Example acquired_healthy :
  Observe.acquired Samples.healthy
  = Some (1%positive, 2%positive, "bgra8unorm").
Proof. reflexivity. Qed.

(** X11.  The top-level statement never lets a failure escape: the promise
    of [main().catch(...)] always fulfils.  It calls [logger.error]
    once when the initialization failed and not at all when it
    succeeded, and [main] itself throws nothing but [AppError]s. *)
Theorem main_catch_never_throws (page : Page) :
  fst (Main.main_catch page initial) = Normal tt
  /\ count isLoggerError (snd (Main.main_catch page initial))
     = match first_failure page with Some _ => 1 | None => 0 end
  /\ forall v : Js.Value,
      fst (Main.main page initial) <> Abrupt (ThrownValue v).
Proof.
  by_page page; repeat split; discriminate.
Qed.

(** X12.  A successful initialization configures the context exactly once:
    the context is the one [getContext] returned, the device the one
    the adapter resolved to, the format the preferred one, the alpha
    mode premultiplied; the frame callback registered next is closed
    over that same context and device.  A failed initialization never
    calls [configure]. *)
Theorem configure_once_with_acquired (page : Page) :
  let w := snd (Main.main page initial) in
  match Observe.acquired page with
  | Some (ctx, dev, format) =>
      first_failure page = None
      /\ filter (fun e => Observe.isConfigure e || isRequestAnimationFrame e)
                (trace w)
         = [ ContextConfigure ctx dev format "premultiplied";
             RequestAnimationFrame (mkFrameClosure ctx dev) ]
      /\ rafQueue w = [mkFrameClosure ctx dev]
  | None =>
      first_failure page <> None
      /\ filter Observe.isConfigure (trace w) = []
      /\ rafQueue w = []
  end.
Proof.
  by_page page; repeat split; discriminate.
Qed.

(** A frame, whole: the GPU calls up to and including the first that
    throws, then the report when there is one; or all seven and the
    request for the next frame.  The calls are listed newest first. *)
Lemma frame_calls (self : FrameClosure) (gpu : Frame) (w : World) :
  Main.frame self gpu w
  = (match first_throw gpu with
     | Some x => Observe.afterCatch x
     | None => Normal tt
     end,
     mkWorld
       (match first_throw gpu with
        | Some x =>
            Observe.report x (Some [("phase", Js.Str "render_frame")])
        | None => [RequestAnimationFrame self]
        end
          ++ rev (firstn (Observe.callsMade (Observe.throwsList gpu))
                         (Observe.gpuCalls self))
          ++ calls w)%list
       (match first_throw gpu with
        | Some _ => rafQueue w
        | None => (rafQueue w ++ [self])%list
        end)).
Proof.
  destruct gpu as [a b c d e f g].
  destruct a as [x|]; [destruct x; reflexivity|].
  destruct b as [x|]; [destruct x; reflexivity|].
  destruct c as [x|]; [destruct x; reflexivity|].
  destruct d as [x|]; [destruct x; reflexivity|].
  destruct e as [x|]; [destruct x; reflexivity|].
  destruct f as [x|]; [destruct x; reflexivity|].
  destruct g as [x|]; [destruct x; reflexivity|reflexivity].
Qed.

Lemma callsMade_bound (gpu : Frame) :
  Observe.callsMade (Observe.throwsList gpu) <= 7
  /\ (first_throw gpu = None ->
      Observe.callsMade (Observe.throwsList gpu) = 7).
Proof.
  destruct gpu as [a b c d e f g]. unfold first_throw, Observe.throwsList.
  cbn [getCurrentTexture_throws createView_throws
       createCommandEncoder_throws beginRenderPass_throws end_throws
       finish_throws submit_throws].
  destruct a; [cbn; split; [lia|discriminate]|].
  destruct b; [cbn; split; [lia|discriminate]|].
  destruct c; [cbn; split; [lia|discriminate]|].
  destruct d; [cbn; split; [lia|discriminate]|].
  destruct e; [cbn; split; [lia|discriminate]|].
  destruct f; [cbn; split; [lia|discriminate]|].
  destruct g; cbn; split; (lia || discriminate || reflexivity).
Qed.

(** X13.  Within a frame nothing is called after a call that throws:
    the GPU calls made are the first ones of the fixed sequence of
    seven, up to and including the throwing one.  What was thrown is
    then reported to the logger, tagged [render_frame], as it is when
    it is an [Error] and wrapped in a new [Error] when it is not, and
    [frame] returns normally; except that when [String] cannot convert
    it, nothing is reported and [frame] throws what [String] threw.
    The queue gains the callback when all seven calls went through and
    is left alone otherwise. *)
Theorem frame_stops_at_first_throw (self : FrameClosure) (gpu : Frame)
        (w : World) :
  let r := Main.frame self gpu w in
  Observe.callsMade (Observe.throwsList gpu) <= 7
  /\ match first_throw gpu with
     | Some x =>
         rafQueue (snd r) = rafQueue w
         /\ match Js.stringThrows x with
            | None =>
                fst r = Normal tt
                /\ calls (snd r)
                   = (LoggerError
                        (if Js.instanceofError x
                         then ReportedError x else ReportedWrapped x)
                        (Some [("phase", Js.Str "render_frame")])
                        :: rev (firstn
                                  (Observe.callsMade (Observe.throwsList gpu))
                                  (Observe.gpuCalls self))
                        ++ calls w)%list
            | Some thrown =>
                fst r = Abrupt (ThrownValue thrown)
                /\ Js.instanceofError x = false
                /\ calls (snd r)
                   = (rev (firstn
                             (Observe.callsMade (Observe.throwsList gpu))
                             (Observe.gpuCalls self))
                        ++ calls w)%list
            end
     | None =>
         fst r = Normal tt
         /\ calls (snd r)
            = (RequestAnimationFrame self
                 :: rev (Observe.gpuCalls self) ++ calls w)%list
         /\ rafQueue (snd r) = (rafQueue w ++ [self])%list
         /\ Observe.callsMade (Observe.throwsList gpu) = 7
     end.
Proof.
  cbv zeta. rewrite frame_calls. cbn [fst snd calls rafQueue].
  destruct (callsMade_bound gpu) as [Hle Hall].
  split; [exact Hle|].
  destruct (first_throw gpu) as [x|].
  - split; [reflexivity|].
    unfold Observe.afterCatch, Observe.report.
    destruct x; cbn; repeat split.
  - rewrite (Hall eq_refl). repeat split.
Qed.

(** With one callback waiting, an animation frame is one run of it. *)
Lemma animationFrame_single (self : FrameClosure) (gpu : Frame) (w : World) :
  rafQueue w = [self] ->
  Main.animationFrame w gpu = snd (Main.frame self gpu (mkWorld (calls w) [])).
Proof.
  destruct w as [cs q]. cbn. intros ->. reflexivity.
Qed.

Lemma submits_in_prefix (self : FrameClosure) (k : nat) :
  List.length
    (filter isQueueSubmit (rev (firstn k (Observe.gpuCalls self)))) <= 1.
Proof.
  rewrite filter_rev, length_rev.
  do 7 (destruct k as [|k]; [cbn; lia|]).
  cbn. rewrite firstn_nil. cbn. lia.
Qed.

Lemma report_length (x : Js.Value) (ctx1 ctx2 : option Js.Obj) :
  List.length (Observe.report x ctx1) = List.length (Observe.report x ctx2)
  /\ List.length (Observe.report x ctx1) <= 1
  /\ filter isLoggerError (Observe.report x ctx1) = Observe.report x ctx1
  /\ filter isQueueSubmit (Observe.report x ctx1) = [].
Proof.
  unfold Observe.report. destruct (Js.stringThrows x); cbn; repeat split; lia.
Qed.

(** The loop from a world in which the callback [self] waits. *)
Lemma loop_from (self : FrameClosure) (frames : list Frame) :
  forall w : World,
    rafQueue w = [self] ->
    let w' := fold_left Main.animationFrame frames w in
    w' = fold_left Main.animationFrame (Observe.effective frames) w
    /\ rafQueue w' = (if forallb Observe.healthy frames then [self] else [])
    /\ List.length (filter isRequestAnimationFrame (calls w'))
       = List.length (filter isRequestAnimationFrame (calls w))
         + Observe.leadingHealthy frames
    /\ List.length (filter isLoggerError (calls w'))
       = List.length (filter isLoggerError (calls w)) + Observe.logged frames
    /\ List.length (filter isQueueSubmit (calls w))
       + Observe.leadingHealthy frames
       <= List.length (filter isQueueSubmit (calls w'))
    /\ List.length (filter isQueueSubmit (calls w'))
       <= List.length (filter isQueueSubmit (calls w))
          + List.length (Observe.effective frames).
Proof.
  induction frames as [|gpu frames IH]; intros w Hq; cbv zeta.
  - cbn. rewrite Hq. repeat split; lia.
  - unfold Observe.logged.
    cbn [fold_left Observe.effective Observe.leadingHealthy forallb
         Observe.firstThrown].
    destruct (Observe.healthy gpu) eqn:Hh; unfold Observe.healthy in Hh;
      destruct (first_throw gpu) as [x|] eqn:Hthrow; try discriminate Hh;
      clear Hh.
    + pose proof (animationFrame_single self gpu w Hq) as Hstep.
      rewrite (frame_healthy self gpu (mkWorld (calls w) []) Hthrow) in Hstep.
      cbn [snd calls rafQueue app] in Hstep.
      cbn [fold_left andb].
      destruct (IH (Main.animationFrame w gpu)) as (E & Q & R & L & S1 & S2).
      { rewrite Hstep. reflexivity. }
      unfold Observe.logged in L.
      rewrite Hstep in E, Q, R, L, S1, S2 |- *.
      cbn [calls filter isRequestAnimationFrame isLoggerError isQueueSubmit
           List.length snd] in R, L, S1, S2.
      split; [exact E|]. split; [exact Q|]. cbn [List.length].
      repeat split; lia.
    + cbn [fold_left andb].
      pose proof (frame_failing self gpu (mkWorld (calls w) []) x Hthrow)
        as (Hq' & _ & Hraf & Herr).
      pose proof (frame_calls self gpu (mkWorld (calls w) [])) as Hcalls.
      rewrite Hthrow in Hcalls.
      rewrite <- (animationFrame_single self gpu w Hq) in Hq', Hraf, Herr.
      cbn [rafQueue calls] in Hq', Hraf, Herr.
      rewrite (frames_idle frames _ Hq').
      split; [reflexivity|]. split; [exact Hq'|].
      rewrite Hraf, Herr, length_app.
      destruct (report_length x (Main.phase "render_frame") None)
        as (Hlen & Hle & _ & _).
      assert (Hsub : calls (Main.animationFrame w gpu)
                     = (Observe.report x
                          (Some [("phase", Js.Str "render_frame")])
                          ++ rev (firstn
                                    (Observe.callsMade
                                       (Observe.throwsList gpu))
                                    (Observe.gpuCalls self))
                          ++ calls w)%list).
      { rewrite (animationFrame_single self gpu w Hq), Hcalls.
        reflexivity. }
      rewrite Hsub, !filter_app, !length_app.
      destruct (report_length x (Some [("phase", Js.Str "render_frame")])
                              None) as (_ & _ & _ & Hnosub).
      rewrite Hnosub. cbn [List.length].
      pose proof (submits_in_prefix self
                    (Observe.callsMade (Observe.throwsList gpu))).
      repeat split; lia.
Qed.

(** X14.  The render loop runs until the first failing frame.  After a
    successful initialization the frames that run are the healthy ones
    at the head of the sequence and the first failing one: the frames
    after it change nothing.  [requestAnimationFrame] is called once by
    [main] and once by every healthy frame before the first failure;
    the callback waits for as long as no frame failed.  At most one
    error is logged: none while the frames are healthy, and for the
    first failing frame one, or none when [String] cannot convert what
    the frame threw.  Every healthy frame before the first failure
    submits one command buffer and no frame submits more than one; a
    run of healthy frames alone submits as many buffers as there are
    frames. *)
Theorem loop_runs_until_first_failure (page : Page) (frames : list Frame) :
  first_failure page = None ->
  let w := Main.run page frames in
  w = Main.run page (Observe.effective frames)
  /\ List.length (rafQueue w)
     = (if forallb Observe.healthy frames then 1 else 0)
  /\ count isRequestAnimationFrame w = S (Observe.leadingHealthy frames)
  /\ count isLoggerError w <= 1
  /\ count isLoggerError w
     = match Observe.firstThrown frames with
       | None => 0
       | Some x =>
           match Js.stringThrows x with
           | None => 1
           | Some _ => 0
           end
       end
  /\ Observe.leadingHealthy frames <= count isQueueSubmit w
  /\ count isQueueSubmit w <= List.length (Observe.effective frames)
  /\ (forallb Observe.healthy frames = true ->
      count isQueueSubmit w = List.length frames).
Proof.
  intros Hpage.
  destruct (main_success_world page Hpage)
    as (self & before & Hw & Hraf & Herr & Hsub).
  cbv zeta. unfold Main.run. rewrite !count_calls.
  set (w0 := snd (Main.main_catch page initial)) in *.
  assert (Hq0 : rafQueue w0 = [self]) by now rewrite Hw.
  assert (Hr0 : List.length (filter isRequestAnimationFrame (calls w0)) = 1)
    by (rewrite Hw; cbn; now rewrite Hraf).
  assert (He0 : List.length (filter isLoggerError (calls w0)) = 0)
    by (rewrite Hw; cbn; now rewrite Herr).
  assert (Hs0 : List.length (filter isQueueSubmit (calls w0)) = 0)
    by (rewrite Hw; cbn; now rewrite Hsub).
  clearbody w0.
  destruct (loop_from self frames w0 Hq0) as (E & Q & R & L & S1 & S2).
  rewrite Hr0 in R. rewrite He0 in L. rewrite Hs0 in S1, S2.
  assert (Hlogged : Observe.logged frames
                    = match Observe.firstThrown frames with
                      | None => 0
                      | Some x =>
                          match Js.stringThrows x with
                          | None => 1
                          | Some _ => 0
                          end
                      end).
  { unfold Observe.logged, Observe.report.
    destruct (Observe.firstThrown frames) as [x|]; [|reflexivity].
    now destruct (Js.stringThrows x). }
  split; [exact E|]. split; [rewrite Q; now destruct (forallb _ _)|].
  split; [lia|].
  split; [rewrite L, Hlogged;
          destruct (Observe.firstThrown frames) as [x|];
          [destruct (Js.stringThrows x)|]; cbn; lia|].
  split; [rewrite L, Hlogged; reflexivity|].
  split; [lia|]. split; [lia|].
  intros Hall.
  assert (Hlead : Observe.leadingHealthy frames = List.length frames
                  /\ Observe.effective frames = frames).
  { clear -Hall. induction frames as [|gpu frames IH]; [now split|].
    cbn in *. apply andb_true_iff in Hall as [Hg Hrest]. rewrite Hg.
    destruct (IH Hrest) as [-> ->]. now split. }
  destruct Hlead as [Hlead Heff]. rewrite Heff in S2. lia.
Qed.

Lemma loop_runs_until_first_failure_witness :
  let frames := [healthy_frame; healthy_frame; Samples.lost_surface;
                 healthy_frame] in
  let w := Main.run Samples.healthy frames in
  w = Main.run Samples.healthy (Observe.effective frames)
  /\ List.length (rafQueue w)
     = (if forallb Observe.healthy frames then 1 else 0)
  /\ count isRequestAnimationFrame w = S (Observe.leadingHealthy frames)
  /\ count isLoggerError w <= 1
  /\ count isLoggerError w = 1
  /\ Observe.leadingHealthy frames <= count isQueueSubmit w
  /\ count isQueueSubmit w <= List.length (Observe.effective frames)
  /\ (forallb Observe.healthy frames = true ->
      count isQueueSubmit w = List.length frames).
Proof.
  apply (loop_runs_until_first_failure
           Samples.healthy
           [healthy_frame; healthy_frame; Samples.lost_surface;
            healthy_frame]).
  reflexivity.
Defined.

(** The error [main] throws at each failing step. *)
Lemma main_throws (page : Page) (st : Step) :
  first_failure page = Some st ->
  fst (Main.main page initial)
  = Abrupt
      (ThrownAppError
         (Errors.new_AppError
            (Observe.className st) (captureStack page) (designated st)
            match Observe.rejection page with
            | Some reason => reason
            | None => Js.Undefined
            end))
  /\ match Observe.rejection page with
     | Some _ => st = DeviceRequest
     | None => st <> DeviceRequest
     end.
Proof.
  intros H. revert H.
  by_page page; intros H; try discriminate H; injection H as <-;
    split; (reflexivity || discriminate).
Qed.

(** X15.  How a failed initialization is routed.  The error thrown has the
    class and the message of the failing step and the stack the engine
    captured.  Four of the five failures are to be shown to the user
    and not logged; a rejected device request is to be logged and not
    shown.  Only the device failure carries a cause, the reason of the
    rejection, and it is serialized only when that reason is truthy;
    the other four serialize without a cause. *)
Theorem failure_routing (page : Page) (st : Step) :
  first_failure page = Some st ->
  exists e : Errors.AppError,
    fst (Main.main page initial) = Abrupt (ThrownAppError e)
    /\ Errors.name e = Observe.className st
    /\ Errors.message e = Errors.getMessageByErrorCode (designated st)
    /\ Errors.message e <> Taxonomy.fallbackMessage
    /\ Errors.stack e = captureStack page
    /\ Errors.call Errors.shouldShowToUser e
       = negb (Observe.isDeviceRequest st)
    /\ Errors.call Errors.shouldLog e = Observe.isDeviceRequest st
    /\ match Observe.rejection page with
       | Some reason =>
           st = DeviceRequest
           /\ Errors.cause e = reason
           /\ Js.hasField "cause" (Errors.call Errors.toJSON e)
              = Js.truthy reason
       | None =>
           st <> DeviceRequest
           /\ Errors.cause e = Js.Undefined
           /\ Js.hasField "cause" (Errors.call Errors.toJSON e) = false
       end.
Proof.
  intros H. destruct (main_throws page st H) as [Hthrown Hrej].
  eexists. split; [exact Hthrown|].
  rewrite toJSON_hasField_cause, new_AppError_fields.
  cbn [Errors.name Errors.message Errors.stack Errors.cause].
  split; [reflexivity|]. split; [reflexivity|].
  split; [destruct st; discriminate|]. split; [reflexivity|].
  split; [destruct st; reflexivity|]. split; [destruct st; reflexivity|].
  destruct (Observe.rejection page); repeat split; assumption.
Qed.

Lemma failure_routing_witness :
  exists e : Errors.AppError,
    fst (Main.main (Samples.device_rejects Js.Undefined) initial)
    = Abrupt (ThrownAppError e)
    /\ Errors.name e = "DeviceRequestFailedError"
    /\ Errors.message e = Errors.getMessageByErrorCode "failed:device"
    /\ Errors.message e <> Taxonomy.fallbackMessage
    /\ Errors.stack e = Some "Error at main"
    /\ Errors.call Errors.shouldShowToUser e = false
    /\ Errors.call Errors.shouldLog e = true
    /\ DeviceRequest = DeviceRequest
    /\ Errors.cause e = Js.Undefined
    /\ Js.hasField "cause" (Errors.call Errors.toJSON e) = false.
Proof.
  apply (failure_routing (Samples.device_rejects Js.Undefined) DeviceRequest).
  reflexivity.
Defined.

End MainFurther.

(* ================================================================== *)
(** * The earlier main.ts against the present one *)

Section EarlierMain.
Import Host Pipeline.

Example legacy_no_canvas :
  Legacy.trace (snd (Legacy.main_catch Samples.no_canvas Legacy.initial))
  = [ Legacy.Call (DocumentGetElementById "webgpu-canvas");
      Legacy.ConsoleError [Js.Str "Canvas not found"] ].
Proof. reflexivity. Qed.

(** X16.  The earlier [main] throws at one place only.  Where a lookup finds
    nothing it prints the guard's message with [console.error] and
    returns normally; a rejected device request is not caught in
    [main]: the reason itself is thrown, and the top-level [catch]
    prints it.  In every failing case no callback is registered; on
    success exactly one is, and nothing is printed.  The top-level
    statement never throws. *)
Theorem legacy_guards_return (page : Page) :
  let r := Legacy.main page Legacy.initial in
  let top := Legacy.main_catch page Legacy.initial in
  fst top = Normal tt
  /\ match first_failure page, Observe.rejection page with
     | None, _ =>
         fst r = Normal tt
         /\ Legacy.consoleErrors (Legacy.trace (snd top)) = []
         /\ List.length (Legacy.rafQueue (snd top)) = 1
     | Some _, Some reason =>
         fst r = Abrupt (ThrownValue reason)
         /\ Legacy.consoleErrors (Legacy.trace (snd r)) = []
         /\ Legacy.consoleErrors (Legacy.trace (snd top)) = [[reason]]
         /\ Legacy.rafQueue (snd top) = []
     | Some st, None =>
         fst r = Normal tt
         /\ Legacy.consoleErrors (Legacy.trace (snd top))
            = [[Js.Str (Observe.legacyMessage st)]]
         /\ Legacy.rafQueue (snd top) = []
     end.
Proof.
  by_page page; repeat split.
Qed.

Lemma legacy_hostCalls_app (l1 l2 : list Legacy.Event) :
  Legacy.hostCalls (l1 ++ l2)%list
  = (Legacy.hostCalls l1 ++ Legacy.hostCalls l2)%list.
Proof.
  induction l1 as [|[e|args] l1 IH]; cbn; [reflexivity| |]; now rewrite IH.
Qed.

Lemma legacy_hostCalls_rev (l : list Legacy.Event) :
  Legacy.hostCalls (rev l) = rev (Legacy.hostCalls l).
Proof.
  induction l as [|[e|args] l IH]; cbn; [reflexivity| |];
    rewrite legacy_hostCalls_app, IH; cbn; [reflexivity|].
  now rewrite app_nil_r.
Qed.

Lemma same_host_frame (self : FrameClosure) (gpu : Frame)
      (lw : Legacy.World) (w : World) :
  Observe.same_host lw w ->
  Observe.same_host (snd (Legacy.frame self gpu lw))
                    (snd (Main.frame self gpu w)).
Proof.
  intros [Hq Hc]. destruct lw as [lcs lq], w as [cs q]. cbn in Hq, Hc.
  subst lq. destruct gpu as [a b c d e f g]. unfold Observe.same_host.
  destruct a as [x|];
    [destruct x; cbn; rewrite Hc; split; reflexivity|].
  destruct b as [x|];
    [destruct x; cbn; rewrite Hc; split; reflexivity|].
  destruct c as [x|];
    [destruct x; cbn; rewrite Hc; split; reflexivity|].
  destruct d as [x|];
    [destruct x; cbn; rewrite Hc; split; reflexivity|].
  destruct e as [x|];
    [destruct x; cbn; rewrite Hc; split; reflexivity|].
  destruct f as [x|];
    [destruct x; cbn; rewrite Hc; split; reflexivity|].
  destruct g as [x|];
    [destruct x|]; cbn; rewrite Hc; split; reflexivity.
Qed.

Lemma same_host_callbacks (gpu : Frame) (queue : list FrameClosure) :
  forall (lw : Legacy.World) (w : World),
    Observe.same_host lw w ->
    Observe.same_host (fold_left (Legacy.runCallback gpu) queue lw)
              (fold_left (Main.runCallback gpu) queue w).
Proof.
  induction queue as [|self queue IH]; intros lw w H; [exact H|].
  cbn [fold_left]. apply IH. now apply same_host_frame.
Qed.

Lemma same_host_animationFrame (gpu : Frame) (lw : Legacy.World) (w : World) :
  Observe.same_host lw w ->
  Observe.same_host (Legacy.animationFrame lw gpu)
                    (Main.animationFrame w gpu).
Proof.
  intros [Hq Hc]. unfold Legacy.animationFrame, Main.animationFrame.
  rewrite Hq. apply same_host_callbacks. split; [reflexivity|exact Hc].
Qed.

Lemma same_host_main (page : Page) :
  Observe.same_host (snd (Legacy.main_catch page Legacy.initial))
            (snd (Main.main_catch page initial)).
Proof.
  unfold Observe.same_host. by_page page; split; reflexivity.
Qed.

(** A frame reads nothing of the canvas. *)
Lemma reads_frame (self : FrameClosure) (gpu : Frame) (w : World) :
  filter Observe.isCanvasRead (calls (snd (Main.frame self gpu w)))
  = filter Observe.isCanvasRead (calls w).
Proof.
  destruct gpu as [a b c d e f g].
  destruct a as [x|]; [destruct x; reflexivity|].
  destruct b as [x|]; [destruct x; reflexivity|].
  destruct c as [x|]; [destruct x; reflexivity|].
  destruct d as [x|]; [destruct x; reflexivity|].
  destruct e as [x|]; [destruct x; reflexivity|].
  destruct f as [x|]; [destruct x; reflexivity|].
  destruct g as [x|]; [destruct x; reflexivity|reflexivity].
Qed.

Lemma reads_callbacks (gpu : Frame) (queue : list FrameClosure) :
  forall w : World,
    filter Observe.isCanvasRead
           (calls (fold_left (Main.runCallback gpu) queue w))
    = filter Observe.isCanvasRead (calls w).
Proof.
  induction queue as [|self queue IH]; intros w; [reflexivity|].
  cbn [fold_left]. rewrite IH. apply reads_frame.
Qed.

Lemma reads_frames (frames : list Frame) :
  forall w : World,
    filter Observe.isCanvasRead
           (calls (fold_left Main.animationFrame frames w))
    = filter Observe.isCanvasRead (calls w).
Proof.
  induction frames as [|gpu frames IH]; intros w; [reflexivity|].
  cbn [fold_left]. rewrite IH. unfold Main.animationFrame.
  now rewrite reads_callbacks.
Qed.

Lemma reads_main (page : Page) :
  filter Observe.isCanvasRead (calls (snd (Main.main_catch page initial)))
  = match getElementById page "webgpu-canvas" with
    | Some _ => [CanvasHeight; CanvasWidth]
    | None => []
    end.
Proof. by_page page; reflexivity. Qed.

(** X17.  The rewrite with structured errors left the calls on the
    host as they were: on every page and every sequence of frames the
    two versions make the same calls on the document, the canvas, the
    GPU and the frame scheduler, in the same order, and leave the same
    callbacks waiting.  The present version makes two accesses more:
    once the canvas is found it reads [canvas.width] and then
    [canvas.height], for its debug line.  (What the two report, and
    whether a failure of a frame leaves the callback, differs.) *)
Theorem legacy_same_calls_but_canvas_size (page : Page)
        (frames : list Frame) :
  Legacy.hostCalls (Legacy.trace (Legacy.run page frames))
  = Observe.methodCalls (trace (Main.run page frames))
  /\ Legacy.rafQueue (Legacy.run page frames)
     = rafQueue (Main.run page frames)
  /\ filter Observe.isCanvasRead (trace (Main.run page frames))
     = match getElementById page "webgpu-canvas" with
       | Some _ => [CanvasWidth; CanvasHeight]
       | None => []
       end.
Proof.
  assert (H : Observe.same_host (Legacy.run page frames)
                                (Main.run page frames)).
  { unfold Legacy.run, Main.run.
    generalize (same_host_main page).
    generalize (snd (Legacy.main_catch page Legacy.initial)).
    generalize (snd (Main.main_catch page initial)).
    induction frames as [|gpu frames IH]; intros w lw H; [exact H|].
    cbn [fold_left]. apply IH. now apply same_host_animationFrame. }
  destruct H as [Hq Hc]. split; [|split; [exact Hq|]].
  - unfold Legacy.trace, trace, Observe.methodCalls.
    now rewrite legacy_hostCalls_rev, filter_rev, Hc.
  - unfold trace, Main.run. rewrite filter_rev, reads_frames, reads_main.
    now destruct (getElementById page "webgpu-canvas").
Qed.

(** X18.  A failing frame, in the two versions.  In the earlier one it
    is not caught: what the GPU call threw leaves the callback, and
    nothing is printed.  In the present one it is caught and reported
    to the logger, tagged [render_frame], and [frame] returns
    normally; only when [String] cannot convert what was thrown is
    nothing reported and does [frame] throw, what [String] threw.  In
    both versions the next frame is requested exactly when no call
    threw, and a healthy frame reports nothing. *)
Theorem legacy_frame_failure_escapes (self : FrameClosure) (gpu : Frame)
        (lw : Legacy.World) (w : World) :
  (fst (Legacy.frame self gpu lw)
   = match first_throw gpu with
     | Some x => Abrupt (ThrownValue x)
     | None => Normal tt
     end
   /\ Legacy.consoleErrors (Legacy.calls (snd (Legacy.frame self gpu lw)))
      = Legacy.consoleErrors (Legacy.calls lw)
   /\ Legacy.rafQueue (snd (Legacy.frame self gpu lw))
      = match first_throw gpu with
        | Some _ => Legacy.rafQueue lw
        | None => (Legacy.rafQueue lw ++ [self])%list
        end)
  /\ (fst (Main.frame self gpu w)
      = match first_throw gpu with
        | Some x =>
            match Js.stringThrows x with
            | Some thrown => Abrupt (ThrownValue thrown)
            | None => Normal tt
            end
        | None => Normal tt
        end
      /\ filter isLoggerError (calls (snd (Main.frame self gpu w)))
         = (match first_throw gpu with
            | Some x =>
                match Js.stringThrows x with
                | Some _ => []
                | None =>
                    [LoggerError (asError (ThrownValue x))
                                 (Some [("phase", Js.Str "render_frame")])]
                end
            | None => []
            end ++ filter isLoggerError (calls w))%list
      /\ rafQueue (snd (Main.frame self gpu w))
         = match first_throw gpu with
           | Some _ => rafQueue w
           | None => (rafQueue w ++ [self])%list
           end).
Proof.
  split.
  - destruct gpu as [a b c d e f g].
    (destruct a; [repeat split|]); (destruct b; [repeat split|]);
    (destruct c; [repeat split|]); (destruct d; [repeat split|]);
    (destruct e; [repeat split|]); (destruct f; [repeat split|]);
    destruct g; repeat split.
  - rewrite frame_calls. cbn [fst snd calls rafQueue].
    assert (Hprefix : forall k,
               filter isLoggerError
                      (rev (firstn k (Observe.gpuCalls self))) = []).
    { intros k. rewrite filter_rev.
      do 7 (destruct k as [|k]; [reflexivity|]).
      cbn. now rewrite firstn_nil. }
    rewrite !filter_app, Hprefix. cbn [app].
    unfold Observe.afterCatch, Observe.report.
    destruct (first_throw gpu) as [x|]; [|repeat split].
    destruct (Js.stringThrows x); repeat split.
Qed.

End EarlierMain.
